(** * E_Health: appointments, medical records and role scoping

  A shallow embedding of [authuser/models.py], [mainapp/models.py],
  [mainapp/serializers.py] and [mainapp/views.py].

  Tables are finite maps from primary key to row; a model instance is a
  pair of its primary key and its row, so [request.user] has type
  [Z * User].  A queryset is the finite map of the rows it selects (the
  order of a listing is not modelled).  [timezone.now()] is the argument
  [now] of every function that reads the clock.  A view takes the database
  and returns its response together with the database it leaves behind. *)

From stdpp Require Import gmap strings list fin_maps sorting pretty.

Local Open Scope string_scope.
Local Open Scope Z_scope.

(** ** authuser/models.py *)

Module authuser.

(** [User.ROLE_CHOICES] *)
Inductive Role := Patient | Doctor | Admin.

#[global] Instance Role_eq_dec : EqDecision Role.
Proof. solve_decision. Defined.

Record User := {
  email : string;
  name : string;
  role : Role;
  is_active : bool;
  is_staff : bool;
  is_superuser : bool
}.

#[global] Instance User_eq_dec : EqDecision User.
Proof. solve_decision. Defined.

Definition is_patient (u : Z * User) : bool := bool_decide (role u.2 = Patient).
Definition is_doctor (u : Z * User) : bool := bool_decide (role u.2 = Doctor).
Definition is_admin (u : Z * User) : bool := bool_decide (role u.2 = Admin).

(** [CustomUserManager.create_user]: [is_staff] and [is_superuser] default
    to [False]; the role is whatever the caller passes. *)
Definition create_user (email name : string) (role : Role) : User :=
  {| email := email; name := name; role := role;
     is_active := true; is_staff := false; is_superuser := false |}.

(** [CustomUserManager.create_superuser]: both flags default to [True]. *)
Definition create_superuser (email name : string) (role : Role) : User :=
  {| email := email; name := name; role := role;
     is_active := true; is_staff := true; is_superuser := true |}.

End authuser.
Export authuser.

(** ** mainapp/models.py *)

Module models.

(** [Appointment.STATUS_CHOICES] *)
Inductive Status := Pending | Confirmed | Completed | Cancelled.

#[global] Instance Status_eq_dec : EqDecision Status.
Proof. solve_decision. Defined.

(** A row of the appointment table.  [patient] and [doctor] hold the
    primary keys of the users they refer to. *)
Record Appointment := {
  patient : Z;
  doctor : Z;
  date_time : Z;
  status : Status;
  reason : string;
  notes : string;
  created_at : Z;
  updated_at : Z
}.

#[global] Instance Appointment_eq_dec : EqDecision Appointment.
Proof. solve_decision. Defined.

Definition set_status (st : Status) (a : Appointment) : Appointment :=
  {| patient := patient a; doctor := doctor a; date_time := date_time a;
     status := st; reason := reason a; notes := notes a;
     created_at := created_at a; updated_at := updated_at a |}.

Definition set_updated_at (t : Z) (a : Appointment) : Appointment :=
  {| patient := patient a; doctor := doctor a; date_time := date_time a;
     status := status a; reason := reason a; notes := notes a;
     created_at := created_at a; updated_at := t |}.

(** [Appointment.is_upcoming] *)
Definition is_upcoming (now : Z) (a : Appointment) : bool :=
  bool_decide (now < date_time a).

(** [Appointment.can_be_cancelled] *)
Definition can_be_cancelled (now : Z) (a : Appointment) : bool :=
  bool_decide (status a ∈ [Pending; Confirmed]) && is_upcoming now a.

(** A row of the medical-record table; the decimal vitals are kept as
    scaled integers (tenths of a degree, hundredths of a kilogram). *)
Record MedicalRecord := {
  mr_patient : Z;
  mr_doctor : Z;
  mr_appointment : Z;
  symptoms : string;
  diagnosis : string;
  prescription : string;
  mr_notes : string;
  blood_pressure : string;
  temperature : option Z;
  weight : option Z;
  mr_created_at : Z;
  mr_updated_at : Z
}.

#[global] Instance MedicalRecord_eq_dec : EqDecision MedicalRecord.
Proof. solve_decision. Defined.

(** A row of the patient-profile table; [pp_user] is the owner's key. *)
Record PatientProfile := {
  pp_user : Z;
  date_of_birth : option Z;
  gender : string;
  blood_type : string;
  allergies : string;
  medical_history : string;
  emergency_contact_name : string;
  emergency_contact_phone : string;
  emergency_contact_relationship : string
}.

(** The database: one finite map per model. *)
Record DB := {
  users : gmap Z User;
  appointments : gmap Z Appointment;
  medical_records : gmap Z MedicalRecord;
  patient_profiles : gmap Z PatientProfile
}.

Definition set_appointments (m : gmap Z Appointment) (s : DB) : DB :=
  {| users := users s; appointments := m;
     medical_records := medical_records s;
     patient_profiles := patient_profiles s |}.

Definition set_medical_records (m : gmap Z MedicalRecord) (s : DB) : DB :=
  {| users := users s; appointments := appointments s;
     medical_records := m; patient_profiles := patient_profiles s |}.

(** The key an [AutoField] gives a new row: keys count up from 1, the next
    one follows the largest key of the table. *)
Definition next_pk {A} (m : gmap Z A) : Z :=
  1 + foldr Z.max 0 (elements (dom m)).

(** Truth value of a queryset, as tested by [if qs.first():]. *)
Definition first {A} (qs : gmap Z A) : option (Z * A) := head (map_to_list qs).

(** [User.objects.get(id=i, role=r)]; [None] stands for [DoesNotExist]. *)
Definition get_user (s : DB) (i : Z) (r : Role) : option (Z * User) :=
  match users s !! i with
  | Some u => if decide (role u = r) then Some (i, u) else None
  | None => None
  end.

(** [Meta.unique_together = ['doctor', 'date_time']]: the rows other than
    [pk] that already hold the pair of [a]. *)
Definition unique_together_clash (m : gmap Z Appointment) (pk : Z)
    (a : Appointment) : gmap Z Appointment :=
  filter (λ x, x.1 ≠ pk ∧ doctor x.2 = doctor a ∧ date_time x.2 = date_time a) m.

(** [Appointment.save()]: writes the row under [pk] with [updated_at]
    refreshed ([auto_now]); [None] stands for the [IntegrityError] the
    table raises when the write would break [unique_together]. *)
Definition save (now pk : Z) (a : Appointment) (s : DB) : option DB :=
  match first (unique_together_clash (appointments s) pk a) with
  | Some _ => None
  | None => Some (set_appointments (<[pk := set_updated_at now a]> (appointments s)) s)
  end.

(** [instance.delete()] with [on_delete=CASCADE] on
    [MedicalRecord.appointment]. *)
Definition delete_appointment (pk : Z) (s : DB) : DB :=
  set_medical_records
    (filter (λ x, mr_appointment x.2 ≠ pk) (medical_records s))
    (set_appointments (delete pk (appointments s)) s).

End models.
Export models.

(** ** mainapp/serializers.py *)

Module serializers.

(** Outcome of a serializer's [validate]. *)
Inductive Validated (A : Type) :=
| Valid (attrs : A)
| ValidationError (msg : string).
Arguments Valid {A} attrs.
Arguments ValidationError {A} msg.

(** The writable fields of [AppointmentSerializer] ([fields = '__all__'],
    read-only [id], [created_at], [updated_at], [patient], [doctor]).
    [patient_id], [doctor_id] and [date_time] are required; [status],
    [reason] and [notes] may be left out. *)
Record AppointmentAttrs := {
  patient_id : Z;
  doctor_id : Z;
  attrs_date_time : Z;
  attrs_status : option Status;
  attrs_reason : option string;
  attrs_notes : option string
}.

(** The two validation errors the properties below name. *)
Definition booked_msg : string := "Doctor is already booked at this time".
Definition mismatch_msg : string := "Appointment does not match patient and doctor".

(** The queryset of the double-booking check in
    [AppointmentSerializer.validate]. *)
Definition existing_appointments (s : DB) (doctor_pk t : Z) : gmap Z Appointment :=
  filter (λ x, doctor x.2 = doctor_pk ∧ date_time x.2 = t
               ∧ status x.2 ∈ [Pending; Confirmed]) (appointments s).

(** [AppointmentSerializer.validate] *)
Definition validate (s : DB) (now : Z) (attrs : AppointmentAttrs)
    : Validated AppointmentAttrs :=
  match get_user s (patient_id attrs) Patient,
        get_user s (doctor_id attrs) Doctor with
  | Some _, Some doctor =>
      if bool_decide (attrs_date_time attrs ≤ now) then
        ValidationError "Appointment must be scheduled for the future"
      else
        match first (existing_appointments s doctor.1 (attrs_date_time attrs)) with
        | Some _ => ValidationError booked_msg
        | None => Valid attrs
        end
  | _, _ => ValidationError "Invalid patient or doctor ID"
  end.

(** The writable fields of [MedicalRecordSerializer]. *)
Record MedicalRecordAttrs := {
  mr_patient_id : Z;
  mr_doctor_id : Z;
  appointment_id : Z;
  attrs_symptoms : string;
  attrs_diagnosis : string;
  attrs_prescription : option string;
  attrs_mr_notes : option string;
  attrs_blood_pressure : option string;
  attrs_temperature : option Z;
  attrs_weight : option Z
}.

(** [MedicalRecordSerializer.validate]; two users are equal when their
    primary keys are. *)
Definition validate_medical_record (s : DB) (attrs : MedicalRecordAttrs)
    : Validated MedicalRecordAttrs :=
  match get_user s (mr_patient_id attrs) Patient,
        get_user s (mr_doctor_id attrs) Doctor,
        appointments s !! appointment_id attrs with
  | Some patient_, Some doctor_, Some appointment =>
      if bool_decide (patient appointment ≠ patient_.1)
         || bool_decide (doctor appointment ≠ doctor_.1) then
        ValidationError mismatch_msg
      else Valid attrs
  | _, _, _ => ValidationError "Invalid patient, doctor, or appointment ID"
  end.

End serializers.
Export serializers.

(** ** mainapp/views.py *)

Module views.

Inductive Response :=
| HTTP_200_OK
| HTTP_201_CREATED
| HTTP_204_NO_CONTENT
| HTTP_400_BAD_REQUEST (error : string)
| HTTP_403_FORBIDDEN (error : string)
| HTTP_404_NOT_FOUND
| IntegrityError.

#[global] Instance Response_eq_dec : EqDecision Response.
Proof. solve_decision. Defined.

(** What a listing endpoint answers: the rows, or a refusal. *)
Inductive Listing (A : Type) :=
| Rows (qs : gmap Z A)
| Refused (r : Response).
Arguments Rows {A} qs.
Arguments Refused {A} r.

(** [get_object()]: the row with key [pk] of the caller's queryset; [None]
    stands for [Http404]. *)
Definition get_object {A} (qs : gmap Z A) (pk : Z) : option A := qs !! pk.

(** *** PatientProfileViewSet *)

Module PatientProfileViewSet.

(** [values_list('patient_id', flat=True)] of the doctor's appointments. *)
Definition patient_ids (u : Z * User) (s : DB) : list Z :=
  (λ x, patient x.2) <$> map_to_list (filter (λ x, doctor x.2 = u.1) (appointments s)).

Definition get_queryset (u : Z * User) (s : DB) : gmap Z PatientProfile :=
  if is_admin u then patient_profiles s
  else if is_doctor u then
    filter (λ x, pp_user x.2 ∈ patient_ids u s) (patient_profiles s)
  else filter (λ x, pp_user x.2 = u.1) (patient_profiles s).

(** [ListModelMixin.list] *)
Definition list_view (u : Z * User) (s : DB) : Listing PatientProfile :=
  Rows (get_queryset u s).

End PatientProfileViewSet.

(** *** AppointmentViewSet *)

Module AppointmentViewSet.

Definition get_queryset (u : Z * User) (s : DB) : gmap Z Appointment :=
  if is_admin u then appointments s
  else if is_doctor u then filter (λ x, doctor x.2 = u.1) (appointments s)
  else filter (λ x, patient x.2 = u.1) (appointments s).

Definition list_view (u : Z * User) (s : DB) : Listing Appointment :=
  Rows (get_queryset u s).

Definition upcoming (u : Z * User) (now : Z) (s : DB) : Listing Appointment :=
  Rows (filter (λ x, now < date_time x.2 ∧ status x.2 ∈ [Pending; Confirmed])
               (get_queryset u s)).

(** Calendar date of a timestamp counted in seconds. *)
Definition date (t : Z) : Z := t `div` 86400.

Definition today (u : Z * User) (now : Z) (s : DB) : Listing Appointment :=
  Rows (filter (λ x, date (date_time x.2) = date now
                     ∧ status x.2 ∈ [Pending; Confirmed])
               (get_queryset u s)).

Section orm.

(** [init_fk p i] is the key that the row built by
    [Model(rel=<instance with key p>, rel_id=i)] holds in column [rel_id],
    that is, when the model constructor receives both the related instance
    and the raw id.  The choice belongs to the ORM. *)
Variable init_fk : Z → Z → Z.

(** [serializer.save] on a new instance: the keyword arguments
    join the validated data and [Appointment.objects.create] builds and
    inserts the row under the next key.  [kw_patient] is the key of the
    instance passed as [patient=...], if any. *)
Definition serializer_save (kw_patient : option Z) (attrs : AppointmentAttrs)
    (now : Z) (s : DB) : option DB :=
  let row :=
    {| patient := match kw_patient with
                  | Some p => init_fk p (patient_id attrs)
                  | None => patient_id attrs
                  end;
       doctor := doctor_id attrs;
       date_time := attrs_date_time attrs;
       status := default Pending (attrs_status attrs);
       reason := default "" (attrs_reason attrs);
       notes := default "" (attrs_notes attrs);
       created_at := now;
       updated_at := now |} in
  save now (next_pk (appointments s)) row s.

Definition perform_create (u : Z * User) (attrs : AppointmentAttrs)
    (now : Z) (s : DB) : option DB :=
  if is_patient u then serializer_save (Some u.1) attrs now s
  else serializer_save None attrs now s.

(** [CreateModelMixin.create]: validate, then [perform_create]. *)
Definition create (u : Z * User) (attrs : AppointmentAttrs) (now : Z) (s : DB)
    : Response * DB :=
  match validate s now attrs with
  | ValidationError msg => (HTTP_400_BAD_REQUEST msg, s)
  | Valid attrs' =>
      match perform_create u attrs' now s with
      | Some s' => (HTTP_201_CREATED, s')
      | None => (IntegrityError, s)
      end
  end.

End orm.

(** [ModelSerializer.update]: every validated field is assigned to the
    instance. *)
Definition serializer_update (instance : Appointment) (attrs : AppointmentAttrs)
    : Appointment :=
  {| patient := patient_id attrs;
     doctor := doctor_id attrs;
     date_time := attrs_date_time attrs;
     status := default (status instance) (attrs_status attrs);
     reason := default (reason instance) (attrs_reason attrs);
     notes := default (notes instance) (attrs_notes attrs);
     created_at := created_at instance;
     updated_at := updated_at instance |}.

(** [UpdateModelMixin.update], inherited from [ModelViewSet] (PUT). *)
Definition update (u : Z * User) (pk : Z) (attrs : AppointmentAttrs) (now : Z)
    (s : DB) : Response * DB :=
  match get_object (get_queryset u s) pk with
  | None => (HTTP_404_NOT_FOUND, s)
  | Some instance =>
      match validate s now attrs with
      | ValidationError msg => (HTTP_400_BAD_REQUEST msg, s)
      | Valid attrs' =>
          match save now pk (serializer_update instance attrs') s with
          | Some s' => (HTTP_200_OK, s')
          | None => (IntegrityError, s)
          end
      end
  end.

(** [DestroyModelMixin.destroy], inherited from [ModelViewSet] (DELETE). *)
Definition destroy (u : Z * User) (pk : Z) (s : DB) : Response * DB :=
  match get_object (get_queryset u s) pk with
  | None => (HTTP_404_NOT_FOUND, s)
  | Some _ => (HTTP_204_NO_CONTENT, delete_appointment pk s)
  end.

Definition confirm (u : Z * User) (pk now : Z) (s : DB) : Response * DB :=
  match get_object (get_queryset u s) pk with
  | None => (HTTP_404_NOT_FOUND, s)
  | Some appointment =>
      if negb (is_doctor u) || bool_decide (doctor appointment ≠ u.1) then
        (HTTP_403_FORBIDDEN "Only the assigned doctor can confirm appointments", s)
      else if bool_decide (status appointment ≠ Pending) then
        (HTTP_400_BAD_REQUEST "Only pending appointments can be confirmed", s)
      else
        match save now pk (set_status Confirmed appointment) s with
        | Some s' => (HTTP_200_OK, s')
        | None => (IntegrityError, s)
        end
  end.

Definition complete (u : Z * User) (pk now : Z) (s : DB) : Response * DB :=
  match get_object (get_queryset u s) pk with
  | None => (HTTP_404_NOT_FOUND, s)
  | Some appointment =>
      if negb (is_doctor u) || bool_decide (doctor appointment ≠ u.1) then
        (HTTP_403_FORBIDDEN "Only the assigned doctor can complete appointments", s)
      else if bool_decide (status appointment ≠ Confirmed) then
        (HTTP_400_BAD_REQUEST "Only confirmed appointments can be completed", s)
      else
        match save now pk (set_status Completed appointment) s with
        | Some s' => (HTTP_200_OK, s')
        | None => (IntegrityError, s)
        end
  end.

Definition cancel (u : Z * User) (pk now : Z) (s : DB) : Response * DB :=
  match get_object (get_queryset u s) pk with
  | None => (HTTP_404_NOT_FOUND, s)
  | Some appointment =>
      if negb (bool_decide (u.1 = patient appointment)
               || bool_decide (u.1 = doctor appointment)
               || is_admin u) then
        (HTTP_403_FORBIDDEN "You can only cancel your own appointments", s)
      else if negb (can_be_cancelled now appointment) then
        (HTTP_400_BAD_REQUEST "This appointment cannot be cancelled", s)
      else
        match save now pk (set_status Cancelled appointment) s with
        | Some s' => (HTTP_200_OK, s')
        | None => (IntegrityError, s)
        end
  end.

End AppointmentViewSet.

(** *** MedicalRecordViewSet *)

Module MedicalRecordViewSet.

Definition get_queryset (u : Z * User) (s : DB) : gmap Z MedicalRecord :=
  if is_admin u then medical_records s
  else if is_doctor u then filter (λ x, mr_doctor x.2 = u.1) (medical_records s)
  else filter (λ x, mr_patient x.2 = u.1) (medical_records s).

Definition list_view (u : Z * User) (s : DB) : Listing MedicalRecord :=
  Rows (get_queryset u s).

(** [patient_history]; [patient_id] is the query parameter read as a
    number, [None] when it is missing. *)
Definition patient_history (u : Z * User) (patient_id : option Z) (s : DB)
    : Listing MedicalRecord :=
  match patient_id with
  | None => Refused (HTTP_400_BAD_REQUEST "patient_id is required")
  | Some pid =>
      if is_patient u && bool_decide (u.1 ≠ pid) then
        Refused (HTTP_403_FORBIDDEN "You can only view your own medical history")
      else if is_doctor u then
        let patient_appointments :=
          dom (filter (λ x, doctor x.2 = u.1 ∧ patient x.2 = pid) (appointments s)) in
        Rows (filter (λ x, mr_patient x.2 = pid
                           ∧ mr_appointment x.2 ∈ patient_appointments)
                     (medical_records s))
      else Rows (filter (λ x, mr_patient x.2 = pid) (medical_records s))
  end.

Section orm.

Variable init_fk : Z → Z → Z.

(** [serializer.save] on a new record; [kw_doctor] is the key of the
    instance passed as [doctor=...], if any. *)
Definition serializer_save (kw_doctor : option Z) (attrs : MedicalRecordAttrs)
    (now : Z) (s : DB) : DB :=
  let row :=
    {| mr_patient := mr_patient_id attrs;
       mr_doctor := match kw_doctor with
                    | Some d => init_fk d (mr_doctor_id attrs)
                    | None => mr_doctor_id attrs
                    end;
       mr_appointment := appointment_id attrs;
       symptoms := attrs_symptoms attrs;
       diagnosis := attrs_diagnosis attrs;
       prescription := default "" (attrs_prescription attrs);
       mr_notes := default "" (attrs_mr_notes attrs);
       blood_pressure := default "" (attrs_blood_pressure attrs);
       temperature := attrs_temperature attrs;
       weight := attrs_weight attrs;
       mr_created_at := now;
       mr_updated_at := now |} in
  set_medical_records
    (<[next_pk (medical_records s) := row]> (medical_records s)) s.

Definition perform_create (u : Z * User) (attrs : MedicalRecordAttrs)
    (now : Z) (s : DB) : DB :=
  if is_doctor u then serializer_save (Some u.1) attrs now s
  else serializer_save None attrs now s.

Definition create (u : Z * User) (attrs : MedicalRecordAttrs) (now : Z) (s : DB)
    : Response * DB :=
  match validate_medical_record s attrs with
  | ValidationError msg => (HTTP_400_BAD_REQUEST msg, s)
  | Valid attrs' => (HTTP_201_CREATED, perform_create u attrs' now s)
  end.

End orm.

End MedicalRecordViewSet.

(** *** DashboardViewSet *)

Module DashboardViewSet.

(** [rest_framework.permissions.IsAdminUser]: granted to staff users. *)
Definition IsAdminUser (u : Z * User) : bool := is_staff u.2.

Definition permission_classes : list (Z * User → bool) := [IsAdminUser].

(** [APIView.check_permissions] *)
Definition check_permissions (u : Z * User) : bool :=
  forallb (λ permission, permission u) permission_classes.

Definition permission_denied : Response :=
  HTTP_403_FORBIDDEN "You do not have permission to perform this action.".

(** The [diagnosis] column of the medical-record table. *)
Definition diagnoses (s : DB) : list string :=
  (λ x, diagnosis x.2) <$> map_to_list (medical_records s).

(** [Count('diagnosis')] within the group of [d]. *)
Definition Count (d : string) (rows : list string) : nat :=
  length (filter (λ x, x = d) rows).

(** Descending in [count]. *)
Definition count_desc (x y : string * nat) : Prop := (y.2 ≤ x.2)%nat.

#[global] Instance count_desc_trans : Transitive count_desc.
Proof. unfold count_desc. intros x y z ??. lia. Qed.

(** [values('diagnosis').annotate(count=Count('diagnosis'))]: one row per
    distinct text, with the number of records that carry it. *)
Definition annotate_count (rows : list string) : list (string * nat) :=
  (λ d, (d, Count d rows)) <$> remove_dups rows.

(** [order_by('-count')]: the database returns the rows in some order that
    is descending in [count]; the query names no second key. *)
Definition order_by_count_desc (l l' : list (string * nat)) : Prop :=
  l' ≡ₚ l ∧ Sorted count_desc l'.

(** The value of [common_diagnoses] in [stats]: the first five rows. *)
Definition common_diagnoses (s : DB) (res : list (string * nat)) : Prop :=
  ∃ l, order_by_count_desc (annotate_count (diagnoses s)) l ∧ res = take 5 l.

Record Stats := {
  total_patients : nat;
  total_doctors : nat;
  total_appointments : nat;
  pending_appointments : nat;
  completed_appointments : nat;
  total_medical_records : nat;
  stats_common_diagnoses : list (string * nat)
}.

(** The body of a successful [stats] response. *)
Definition stats_data (s : DB) (d : Stats) : Prop :=
  total_patients d = size (filter (λ x, role x.2 = Patient) (users s))
  ∧ total_doctors d = size (filter (λ x, role x.2 = Doctor) (users s))
  ∧ total_appointments d = size (appointments s)
  ∧ pending_appointments d = size (filter (λ x, status x.2 = Pending) (appointments s))
  ∧ completed_appointments d = size (filter (λ x, status x.2 = Completed) (appointments s))
  ∧ total_medical_records d = size (medical_records s)
  ∧ common_diagnoses s (stats_common_diagnoses d).

Definition stats (u : Z * User) (s : DB) : Response :=
  if check_permissions u then HTTP_200_OK else permission_denied.

Definition recent_activity (u : Z * User) (s : DB) : Response :=
  if check_permissions u then HTTP_200_OK else permission_denied.

End DashboardViewSet.

End views.
Export views.

(** ** MedicalRecordViewSet, the update and destroy it inherits *)

Module MedicalRecordWrites.

(** The validated body of a PUT or PATCH on a medical record.  [validate]
    reads the three ids, so a body without one of them ends in a [KeyError]
    and writes nothing; the other fields may be left out (PATCH). *)
Record MedicalRecordChanges := {
  ch_patient_id : Z;
  ch_doctor_id : Z;
  ch_appointment_id : Z;
  ch_symptoms : option string;
  ch_diagnosis : option string;
  ch_prescription : option string;
  ch_notes : option string;
  ch_blood_pressure : option string;
  ch_temperature : option (option Z);
  ch_weight : option (option Z)
}.

(** The data [validate] sees: the body over the instance. *)
Definition as_attrs (instance : MedicalRecord) (ch : MedicalRecordChanges)
    : MedicalRecordAttrs :=
  {| mr_patient_id := ch_patient_id ch;
     mr_doctor_id := ch_doctor_id ch;
     appointment_id := ch_appointment_id ch;
     attrs_symptoms := default (symptoms instance) (ch_symptoms ch);
     attrs_diagnosis := default (diagnosis instance) (ch_diagnosis ch);
     attrs_prescription := ch_prescription ch;
     attrs_mr_notes := ch_notes ch;
     attrs_blood_pressure := ch_blood_pressure ch;
     attrs_temperature := default (temperature instance) (ch_temperature ch);
     attrs_weight := default (weight instance) (ch_weight ch) |}.

(** [ModelSerializer.update] followed by [instance.save()]. *)
Definition serializer_update (now : Z) (instance : MedicalRecord)
    (ch : MedicalRecordChanges) : MedicalRecord :=
  {| mr_patient := ch_patient_id ch;
     mr_doctor := ch_doctor_id ch;
     mr_appointment := ch_appointment_id ch;
     symptoms := default (symptoms instance) (ch_symptoms ch);
     diagnosis := default (diagnosis instance) (ch_diagnosis ch);
     prescription := default (prescription instance) (ch_prescription ch);
     mr_notes := default (mr_notes instance) (ch_notes ch);
     blood_pressure := default (blood_pressure instance) (ch_blood_pressure ch);
     temperature := default (temperature instance) (ch_temperature ch);
     weight := default (weight instance) (ch_weight ch);
     mr_created_at := mr_created_at instance;
     mr_updated_at := now |}.

(** [UpdateModelMixin.update] (PUT, PATCH). *)
Definition update (u : Z * User) (pk : Z) (ch : MedicalRecordChanges) (now : Z)
    (s : DB) : Response * DB :=
  match get_object (MedicalRecordViewSet.get_queryset u s) pk with
  | None => (HTTP_404_NOT_FOUND, s)
  | Some instance =>
      match validate_medical_record s (as_attrs instance ch) with
      | ValidationError msg => (HTTP_400_BAD_REQUEST msg, s)
      | Valid _ =>
          (HTTP_200_OK,
           set_medical_records
             (<[pk := serializer_update now instance ch]> (medical_records s)) s)
      end
  end.

(** [DestroyModelMixin.destroy] (DELETE). *)
Definition destroy (u : Z * User) (pk : Z) (s : DB) : Response * DB :=
  match get_object (MedicalRecordViewSet.get_queryset u s) pk with
  | None => (HTTP_404_NOT_FOUND, s)
  | Some _ => (HTTP_204_NO_CONTENT, set_medical_records (delete pk (medical_records s)) s)
  end.

End MedicalRecordWrites.

(** ** mainapp/urls.py: the requests that write to the database *)

Module urls.

Inductive Request :=
| UserSave (pk : Z) (row : User)
| UserDestroy (pk : Z)
| AppointmentCreate (attrs : AppointmentAttrs)
| AppointmentUpdate (pk : Z) (attrs : AppointmentAttrs)
| AppointmentDestroy (pk : Z)
| AppointmentConfirm (pk : Z)
| AppointmentComplete (pk : Z)
| AppointmentCancel (pk : Z)
| MedicalRecordCreate (attrs : MedicalRecordAttrs)
| MedicalRecordUpdate (pk : Z) (ch : MedicalRecordWrites.MedicalRecordChanges)
| MedicalRecordDestroy (pk : Z)
| PatientProfileWrite (rows : gmap Z PatientProfile).

(** Writing a user row (registration, profile update). *)
Definition save_user (pk : Z) (row : User) (s : DB) : DB :=
  {| users := <[pk := row]> (users s); appointments := appointments s;
     medical_records := medical_records s;
     patient_profiles := patient_profiles s |}.

(** Deleting a user; every foreign key to the user is [on_delete=CASCADE]. *)
Definition delete_user (pk : Z) (s : DB) : DB :=
  let appts := filter (λ x, patient x.2 ≠ pk ∧ doctor x.2 ≠ pk) (appointments s) in
  {| users := delete pk (users s);
     appointments := appts;
     medical_records :=
       filter (λ x, mr_patient x.2 ≠ pk ∧ mr_doctor x.2 ≠ pk
                    ∧ mr_appointment x.2 ∈ dom appts) (medical_records s);
     patient_profiles := filter (λ x, pp_user x.2 ≠ pk) (patient_profiles s) |}.

(** The create, update and destroy endpoints of [PatientProfileViewSet]
    write rows of the profile table and nothing else; [rows] is the table
    they leave. *)
Definition write_profiles (rows : gmap Z PatientProfile) (s : DB) : DB :=
  {| users := users s; appointments := appointments s;
     medical_records := medical_records s; patient_profiles := rows |}.

Section orm.

Variable init_fk : Z → Z → Z.

Definition dispatch (u : Z * User) (req : Request) (now : Z) (s : DB)
    : Response * DB :=
  match req with
  | UserSave pk row => (HTTP_200_OK, save_user pk row s)
  | UserDestroy pk => (HTTP_204_NO_CONTENT, delete_user pk s)
  | AppointmentCreate attrs => AppointmentViewSet.create init_fk u attrs now s
  | AppointmentUpdate pk attrs => AppointmentViewSet.update u pk attrs now s
  | AppointmentDestroy pk => AppointmentViewSet.destroy u pk s
  | AppointmentConfirm pk => AppointmentViewSet.confirm u pk now s
  | AppointmentComplete pk => AppointmentViewSet.complete u pk now s
  | AppointmentCancel pk => AppointmentViewSet.cancel u pk now s
  | MedicalRecordCreate attrs => MedicalRecordViewSet.create init_fk u attrs now s
  | MedicalRecordUpdate pk ch => MedicalRecordWrites.update u pk ch now s
  | MedicalRecordDestroy pk => MedicalRecordWrites.destroy u pk s
  | PatientProfileWrite rows => (HTTP_200_OK, write_profiles rows s)
  end.

(** The databases the API can produce from one without appointments. *)
Inductive reachable : DB → Prop :=
| reachable_initial us pp :
    reachable {| users := us; appointments := ∅; medical_records := ∅;
                 patient_profiles := pp |}
| reachable_request s u req now :
    reachable s → reachable (dispatch u req now s).2.

End orm.

End urls.
Export urls.

(** ** The wording of the specification *)

Module spec.

(** The distinct texts in first-seen order. *)
Fixpoint first_seen (rows : list string) : list string :=
  match rows with
  | [] => []
  | d :: rows' => d :: filter (λ x, x ≠ d) (first_seen rows')
  end.

(** Groups by exact text with their counts, in first-seen order. *)
Definition group_count (rows : list string) : list (string * nat) :=
  (λ d, (d, length (filter (λ x, x = d) rows))) <$> first_seen rows.

(** Insertion that keeps [g] ahead of the groups that are not larger. *)
Fixpoint insert_desc (g : string * nat) (l : list (string * nat))
    : list (string * nat) :=
  match l with
  | [] => [g]
  | h :: l' => if (g.2 <? h.2)%nat then h :: insert_desc g l' else g :: h :: l'
  end.

(** Descending by count, ties in first-seen order. *)
Definition sort_desc (l : list (string * nat)) : list (string * nat) :=
  foldr insert_desc [] l.

(** [top5_diagnoses] as section 4.5 words it. *)
Definition top5_diagnoses (rows : list string) : list (string * nat) :=
  take 5 (sort_desc (group_count rows)).

(** The edges of the appointment state machine of section 4.2. *)
Inductive Action := Confirm | Complete | Cancel.

Definition transition (act : Action) (old new : Status) : Prop :=
  match act with
  | Confirm => old = Pending ∧ new = Confirmed
  | Complete => old = Confirmed ∧ new = Completed
  | Cancel => (old = Pending ∨ old = Confirmed) ∧ new = Cancelled
  end.

(** The statuses an action may start from. *)
Definition source (act : Action) (old : Status) : Prop :=
  match act with
  | Confirm => old = Pending
  | Complete => old = Confirmed
  | Cancel => old = Pending ∨ old = Confirmed
  end.

(** A terminal state. *)
Definition terminal (st : Status) : Prop := st = Completed ∨ st = Cancelled.

(** No double booking: two non-cancelled appointments of one doctor at one
    time are the same row. *)
Definition no_double_booking (m : gmap Z Appointment) : Prop :=
  ∀ D T i j a b,
    m !! i = Some a → m !! j = Some b →
    doctor a = D → date_time a = T → status a ≠ Cancelled →
    doctor b = D → date_time b = T → status b ≠ Cancelled →
    i = j.

End spec.
Export spec.

(** The action endpoints of [AppointmentViewSet]. *)
Definition run (act : Action) (u : Z * User) (pk now : Z) (s : DB)
    : Response * DB :=
  match act with
  | Confirm => AppointmentViewSet.confirm u pk now s
  | Complete => AppointmentViewSet.complete u pk now s
  | Cancel => AppointmentViewSet.cancel u pk now s
  end.

(** [Meta.unique_together] as a property of the table. *)
Definition unique_together (m : gmap Z Appointment) : Prop :=
  map_Forall (λ i a,
    map_Forall (λ j b,
      doctor a = doctor b → date_time a = date_time b → i = j) m) m.

#[global] Instance unique_together_dec m : Decision (unique_together m).
Proof. unfold unique_together. apply _. Defined.

(** ** Example data *)

Module example.

Definition alice : User := create_user "alice@example.org" "Alice" Patient.
Definition bob : User := create_user "bob@example.org" "Bob" Patient.
Definition dr_grey : User := create_user "grey@example.org" "Grey" Doctor.
Definition dr_house : User := create_user "house@example.org" "House" Doctor.
Definition registered_admin : User := create_user "ops@example.org" "Ops" Admin.
Definition staff_patient : User := create_superuser "root@example.org" "Root" Patient.

Definition some_users : gmap Z User :=
  <[1 := alice]> (<[2 := dr_grey]> (<[3 := bob]> (<[4 := dr_house]>
  (<[5 := registered_admin]> (<[6 := staff_patient]> ∅))))).

Definition appointment (p d t : Z) (st : Status) : Appointment :=
  {| patient := p; doctor := d; date_time := t; status := st;
     reason := "checkup"; notes := ""; created_at := 0; updated_at := 0 |}.

Definition record (p d a : Z) (text : string) : MedicalRecord :=
  {| mr_patient := p; mr_doctor := d; mr_appointment := a;
     symptoms := "cough"; diagnosis := text; prescription := ""; mr_notes := "";
     blood_pressure := ""; temperature := None; weight := None;
     mr_created_at := 0; mr_updated_at := 0 |}.

Definition profile (owner : Z) : PatientProfile :=
  {| pp_user := owner; date_of_birth := None; gender := ""; blood_type := "";
     allergies := ""; medical_history := ""; emergency_contact_name := "";
     emergency_contact_phone := ""; emergency_contact_relationship := "" |}.

(** Alice and Bob each see Dr Grey; the clock of the examples reads 100. *)
Definition clinic : DB :=
  {| users := some_users;
     appointments :=
       <[1 := appointment 1 2 1000 Pending]>
       (<[2 := appointment 3 2 2000 Confirmed]>
       (<[3 := appointment 1 2 50 Completed]>
       (<[4 := appointment 3 4 3000 Cancelled]>
       (<[5 := appointment 1 4 60 Pending]> ∅))));
     medical_records :=
       <[1 := record 1 2 3 "flu"]> (<[2 := record 3 2 2 "flu"]>
       (<[3 := record 1 2 3 "cold"]> ∅));
     patient_profiles := <[1 := profile 1]> (<[2 := profile 3]> ∅) |}.

(** Two records with two diagnoses, one of each. *)
Definition ties : DB :=
  {| users := some_users; appointments := ∅;
     medical_records :=
       <[1 := record 1 2 3 "gout"]> (<[2 := record 3 2 2 "acne"]> ∅);
     patient_profiles := ∅ |}.

Definition attrs (p d t : Z) (st : option Status) : AppointmentAttrs :=
  {| patient_id := p; doctor_id := d; attrs_date_time := t; attrs_status := st;
     attrs_reason := None; attrs_notes := None |}.

Definition record_attrs (p d a : Z) : MedicalRecordAttrs :=
  {| mr_patient_id := p; mr_doctor_id := d; appointment_id := a;
     attrs_symptoms := "cough"; attrs_diagnosis := "flu";
     attrs_prescription := None; attrs_mr_notes := None;
     attrs_blood_pressure := None; attrs_temperature := None;
     attrs_weight := None |}.

End example.

(** ** The three status actions, case by case *)

Module lifecycle.

(** Who passes the permission test of an action. *)
Definition permitted (act : Action) (u : Z * User) (a : Appointment) : Prop :=
  match act with
  | Confirm | Complete => role u.2 = Doctor ∧ doctor a = u.1
  | Cancel => u.1 = patient a ∨ u.1 = doctor a ∨ role u.2 = Admin
  end.

(** What an action asks of the appointment before it writes. *)
Definition guard (act : Action) (now : Z) (a : Appointment) : Prop :=
  match act with
  | Confirm => status a = Pending
  | Complete => status a = Confirmed
  | Cancel => (status a = Pending ∨ status a = Confirmed) ∧ now < date_time a
  end.

(** The status an action writes. *)
Definition target (act : Action) : Status :=
  match act with
  | Confirm => Confirmed
  | Complete => Completed
  | Cancel => Cancelled
  end.

(** The five ways an action endpoint can end. *)
Inductive outcome (act : Action) (u : Z * User) (pk now : Z) (s : DB)
    : Response * DB → Prop :=
| outcome_not_found :
    get_object (AppointmentViewSet.get_queryset u s) pk = None →
    outcome act u pk now s (HTTP_404_NOT_FOUND, s)
| outcome_forbidden a msg :
    get_object (AppointmentViewSet.get_queryset u s) pk = Some a →
    ¬ permitted act u a →
    outcome act u pk now s (HTTP_403_FORBIDDEN msg, s)
| outcome_invalid a msg :
    get_object (AppointmentViewSet.get_queryset u s) pk = Some a →
    permitted act u a → ¬ guard act now a →
    outcome act u pk now s (HTTP_400_BAD_REQUEST msg, s)
| outcome_integrity a :
    get_object (AppointmentViewSet.get_queryset u s) pk = Some a →
    permitted act u a → guard act now a →
    save now pk (set_status (target act) a) s = None →
    outcome act u pk now s (IntegrityError, s)
| outcome_done a s' :
    get_object (AppointmentViewSet.get_queryset u s) pk = Some a →
    permitted act u a → guard act now a →
    save now pk (set_status (target act) a) s = Some s' →
    outcome act u pk now s (HTTP_200_OK, s').

End lifecycle.
Export lifecycle.

(** ** authuser/models.py, the name helpers *)

Module accounts.

(** The character [@], code 64. *)
Definition at_sign : Ascii.ascii := Ascii.ascii_of_nat 64.

(** [s.split('@')[0]]: the text before the first [@], all of [s] when it
    has none. *)
Fixpoint before_at (s : string) : string :=
  match s with
  | EmptyString => EmptyString
  | String c s' => if Ascii.eqb c at_sign then EmptyString else String c (before_at s')
  end.

(** [c in s] *)
Fixpoint occurs (c : Ascii.ascii) (s : string) : bool :=
  match s with
  | EmptyString => false
  | String c' s' => Ascii.eqb c' c || occurs c s'
  end.

(** [User.get_full_name] *)
Definition get_full_name (u : User) : string := name u.

(** [User.get_short_name]: [self.name or self.email.split('@')[0]]; a
    string is false exactly when it is empty. *)
Definition get_short_name (u : User) : string :=
  match name u with
  | EmptyString => before_at (email u)
  | String _ _ => name u
  end.

End accounts.
Export accounts.

(** ** Patient profiles: derived age and creation *)

Module profiles.

(** A calendar date, as [datetime.date] exposes it. *)
Record date := { year : Z; month : Z; day : Z }.

(** [(m1, d1) < (m2, d2)] on tuples. *)
Definition tuple_lt (a b : Z * Z) : bool :=
  bool_decide (a.1 < b.1) || (bool_decide (a.1 = b.1) && bool_decide (a.2 < b.2)).

(** Dates in calendar order. *)
Definition date_le (a b : date) : Prop :=
  year a < year b
  ∨ (year a = year b
     ∧ (month a < month b ∨ (month a = month b ∧ day a ≤ day b))).

(** [PatientProfile.get_age], with [timezone.now().date()] as [today] and
    the profile's [date_of_birth] as a calendar date; the comparison counts
    as 1 when it holds and as 0 otherwise. *)
Definition get_age (today : date) (date_of_birth : option date) : option Z :=
  match date_of_birth with
  | Some dob =>
      Some (year today - year dob
            - (if tuple_lt (month today, day today) (month dob, day dob)
               then 1 else 0))
  | None => None
  end.

(** The validated data of [PatientProfileSerializer], as the field checks
    hand it to [save]; [user] is read-only and not part of it. *)
Record PatientProfileAttrs := {
  attrs_date_of_birth : option Z;
  attrs_gender : string;
  attrs_blood_type : string;
  attrs_allergies : string;
  attrs_medical_history : string;
  attrs_emergency_contact_name : string;
  attrs_emergency_contact_phone : string;
  attrs_emergency_contact_relationship : string
}.

Definition set_patient_profiles (m : gmap Z PatientProfile) (s : DB) : DB :=
  {| users := users s; appointments := appointments s;
     medical_records := medical_records s; patient_profiles := m |}.

(** [serializer.save] on a new profile; [kw_user] is the key of the
    instance passed as [user=...], if any.  [user] is a [OneToOneField]
    that is not nullable: without it, or when the user already owns a
    profile, the table raises an integrity error ([None]). *)
Definition serializer_save (kw_user : option Z) (attrs : PatientProfileAttrs)
    (s : DB) : option DB :=
  match kw_user with
  | None => None
  | Some owner =>
      match first (filter (λ x, pp_user x.2 = owner) (patient_profiles s)) with
      | Some _ => None
      | None =>
          let row :=
            {| pp_user := owner;
               date_of_birth := attrs_date_of_birth attrs;
               gender := attrs_gender attrs;
               blood_type := attrs_blood_type attrs;
               allergies := attrs_allergies attrs;
               medical_history := attrs_medical_history attrs;
               emergency_contact_name := attrs_emergency_contact_name attrs;
               emergency_contact_phone := attrs_emergency_contact_phone attrs;
               emergency_contact_relationship :=
                 attrs_emergency_contact_relationship attrs |} in
          Some (set_patient_profiles
                  (<[next_pk (patient_profiles s) := row]> (patient_profiles s)) s)
      end
  end.

(** [PatientProfileViewSet.perform_create], on validated data; [None]
    stands for the integrity error of the table. *)
Definition perform_create (u : Z * User) (attrs : PatientProfileAttrs) (s : DB)
    : option DB :=
  if is_patient u then serializer_save (Some u.1) attrs s
  else serializer_save None attrs s.


(** Every medical record points at an appointment of the table. *)
Definition records_have_appointments (s : DB) : Prop :=
  ∀ i r, medical_records s !! i = Some r →
         is_Some (appointments s !! mr_appointment r).


(** Users, no rows yet. *)
Definition empty_clinic : DB :=
  {| users := example.some_users; appointments := ∅; medical_records := ∅;
     patient_profiles := ∅ |}.

End profiles.

(** ** DashboardViewSet.recent_activity, the rows it returns *)

Module recent.

(** [order_by('-created_at')]: some order that is descending in
    [created_at]. *)
Definition newest_first {A} (created : A → Z) (rows l : list (Z * A)) : Prop :=
  l ≡ₚ rows ∧ Sorted (λ x y, created y.2 ≤ created x.2) l.

(** The body of a successful [recent_activity]: the ten newest appointments
    and the ten newest medical records of the whole tables. *)
Definition recent_activity_data (s : DB)
    (recent_appointments : list (Z * Appointment))
    (recent_records : list (Z * MedicalRecord)) : Prop :=
  (∃ l, newest_first created_at (map_to_list (appointments s)) l
        ∧ recent_appointments = take 10 l)
  ∧ (∃ l, newest_first mr_created_at (map_to_list (medical_records s)) l
          ∧ recent_records = take 10 l).

(** What [recent_activity] hands to a requester: the body, once the
    permission check of the viewset has passed. *)
Definition recent_activity_rows (u : Z * User) (s : DB)
    (recent_appointments : list (Z * Appointment))
    (recent_records : list (Z * MedicalRecord)) : Prop :=
  DashboardViewSet.check_permissions u = true
  ∧ recent_activity_data s recent_appointments recent_records.

End recent.

(** ** MedicalRecordViewSet.patient_history on the raw query string *)

Module history_query.

Section conversion.

(** The ORM's reading of a raw parameter as a key ([int(raw)]); [None]
    stands for the [ValueError] of a text that is no number. *)
Variable to_python : string → option Z.

(** [patient_history]; [patient_id] is the raw query parameter and
    [str(request.user.id)] is the decimal text of the requester's key. *)
Definition patient_history (u : Z * User) (patient_id : option string) (s : DB)
    : option (Listing MedicalRecord) :=
  match patient_id with
  | None | Some EmptyString =>
      Some (Refused (HTTP_400_BAD_REQUEST "patient_id is required"))
  | Some raw =>
      if is_patient u && bool_decide (pretty u.1 ≠ raw) then
        Some (Refused (HTTP_403_FORBIDDEN "You can only view your own medical history"))
      else
        match to_python raw with
        | None => None
        | Some pid =>
            if is_doctor u then
              let patient_appointments :=
                dom (filter (λ x, doctor x.2 = u.1 ∧ patient x.2 = pid)
                            (appointments s)) in
              Some (Rows (filter (λ x, mr_patient x.2 = pid
                                       ∧ mr_appointment x.2 ∈ patient_appointments)
                                 (medical_records s)))
            else Some (Rows (filter (λ x, mr_patient x.2 = pid) (medical_records s)))
        end
  end.

End conversion.

(** A conversion that knows the text of one key. *)
Definition reads (k : Z) (raw : string) : option Z :=
  if decide (raw = pretty k) then Some k else None.

End history_query.

(** ** A patient, a booking, and what follows *)

Module story.

Definition kim : User := create_user "kim@example.org" "Kim" Patient.


Definition start : DB :=
  {| users := <[2 := kim]> (<[4 := example.dr_house]> (<[7 := example.bob]> ∅));
     appointments := ∅; medical_records := ∅; patient_profiles := ∅ |}.

(** The body's [patient_id] is what the examples let the constructor keep. *)
Definition keep_id (p i : Z) : Z := i.

(** Kim books Dr House. *)
Definition booked : DB :=
  (dispatch keep_id (2, kim) (AppointmentCreate (example.attrs 2 4 1000 None)) 10
     start).2.

(** Dr House confirms, then completes, ahead of the date. *)
Definition completed : DB :=
  (dispatch keep_id (4, example.dr_house) (AppointmentComplete 1) 30
     (dispatch keep_id (4, example.dr_house) (AppointmentConfirm 1) 20 booked).2).2.


End story.



(** * Properties *)

(** ** Querysets *)

Lemma first_None {A} (qs : gmap Z A) : first qs = None ↔ qs = ∅.
Proof.
  unfold first. rewrite <- map_to_list_empty_iff.
  destruct (map_to_list qs); simpl; split; congruence.
Qed.

Lemma first_Some_lookup {A} (qs : gmap Z A) x :
  first qs = Some x → qs !! x.1 = Some x.2.
Proof.
  unfold first. intros H%head_Some_elem_of.
  destruct x as [i a]. by apply elem_of_map_to_list in H.
Qed.

Lemma first_None_lookup {A} (qs : gmap Z A) i : first qs = None → qs !! i = None.
Proof. intros ->%first_None. apply lookup_empty. Qed.

Lemma foldr_max_ge (l : list Z) (k : Z) : k ∈ l → k ≤ foldr Z.max 0 l.
Proof.
  induction l as [|x l IH]; simpl.
  - by intros ?%elem_of_nil.
  - intros [->|Hk]%elem_of_cons; [lia|]. specialize (IH Hk). lia.
Qed.

Lemma next_pk_unused {A} (m : gmap Z A) : m !! next_pk m = None.
Proof.
  destruct (m !! next_pk m) as [x|] eqn:Hk; [|done]. exfalso.
  assert (Hin : next_pk m ∈ elements (dom m)).
  { apply elem_of_elements, elem_of_dom. eauto. }
  apply foldr_max_ge in Hin. unfold next_pk in Hin. lia.
Qed.

Lemma next_pk_positive {A} (m : gmap Z A) : 1 ≤ next_pk m.
Proof. unfold next_pk. induction (elements (dom m)); simpl; lia. Qed.

Lemma get_user_Some s i r u :
  get_user s i r = Some u ↔ u.1 = i ∧ users s !! i = Some u.2 ∧ role u.2 = r.
Proof.
  unfold get_user. destruct u as [j row]. simpl.
  destruct (users s !! i) as [row'|] eqn:E.
  - destruct (decide (role row' = r)) as [Hr|Hr].
    + split; [intros [= <- <-]; auto | intros (-> & [= ->] & _); done].
    + split; [done | intros (_ & [= ->] & ?); done].
  - split; [done | intros (_ & ? & _); done].
Qed.

(** ** Role scoping *)

Section scoping.

Variables (u : Z * User) (s : DB).
Hypothesis Hrole : role u.2 = Patient.

Lemma patient_not_admin : is_admin u = false.
Proof. unfold is_admin. rewrite Hrole. reflexivity. Qed.

Lemma patient_not_doctor : is_doctor u = false.
Proof. unfold is_doctor. rewrite Hrole. reflexivity. Qed.

Lemma patient_is_patient : is_patient u = true.
Proof. unfold is_patient. rewrite Hrole. reflexivity. Qed.

Lemma patient_appointments i a :
  AppointmentViewSet.get_queryset u s !! i = Some a → patient a = u.1.
Proof.
  unfold AppointmentViewSet.get_queryset.
  rewrite patient_not_admin, patient_not_doctor.
  intros [_ H]%map_lookup_filter_Some. exact H.
Qed.

Lemma patient_records i r :
  MedicalRecordViewSet.get_queryset u s !! i = Some r → mr_patient r = u.1.
Proof.
  unfold MedicalRecordViewSet.get_queryset.
  rewrite patient_not_admin, patient_not_doctor.
  intros [_ H]%map_lookup_filter_Some. exact H.
Qed.

Lemma patient_profiles_own i p :
  PatientProfileViewSet.get_queryset u s !! i = Some p → pp_user p = u.1.
Proof.
  unfold PatientProfileViewSet.get_queryset.
  rewrite patient_not_admin, patient_not_doctor.
  intros [_ H]%map_lookup_filter_Some. exact H.
Qed.

Lemma patient_history_own pid qs i r :
  MedicalRecordViewSet.patient_history u pid s = Rows qs →
  qs !! i = Some r → mr_patient r = u.1.
Proof.
  unfold MedicalRecordViewSet.patient_history.
  destruct pid as [pid|]; [|done].
  rewrite patient_is_patient, patient_not_doctor. simpl.
  case_bool_decide as Hpid; [done|].
  intros [= <-] [_ H]%map_lookup_filter_Some. simpl in H. congruence.
Qed.

End scoping.

(** The scoped listings.  For a requester whose role is patient, every row
    returned by the
    appointment listings ([list], [upcoming], [today]), by the medical-record
    listings ([list], [patient_history]) and by the patient-profile listing
    has the requester as its patient (for a profile, as its owner). *)
Theorem patient_sees_only_own_rows (u : Z * User) (now : Z) (pid : option Z)
    (s : DB) :
  role u.2 = Patient →
  (∀ qs i a,
      AppointmentViewSet.list_view u s = Rows qs
      ∨ AppointmentViewSet.upcoming u now s = Rows qs
      ∨ AppointmentViewSet.today u now s = Rows qs →
      qs !! i = Some a → patient a = u.1)
  ∧ (∀ qs i r,
      MedicalRecordViewSet.list_view u s = Rows qs
      ∨ MedicalRecordViewSet.patient_history u pid s = Rows qs →
      qs !! i = Some r → mr_patient r = u.1)
  ∧ (∀ qs i p,
      PatientProfileViewSet.list_view u s = Rows qs →
      qs !! i = Some p → pp_user p = u.1).
Proof.
  intros Hrole. split_and!.
  - intros qs i a [H|[H|H]] Hi; injection H as <-.
    + eauto using patient_appointments.
    + apply map_lookup_filter_Some in Hi as [Hi _]. eauto using patient_appointments.
    + apply map_lookup_filter_Some in Hi as [Hi _]. eauto using patient_appointments.
  - intros qs i r [H|H] Hi.
    + injection H as <-. eauto using patient_records.
    + eauto using patient_history_own.
  - intros qs i p H Hi. injection H as <-. eauto using patient_profiles_own.
Qed.

Lemma patient_sees_only_own_rows_witness :
  role example.alice = Patient
  ∧ ∀ i a,
      AppointmentViewSet.get_queryset (1, example.alice) example.clinic !! i = Some a →
      patient a = 1.
Proof.
  split; [reflexivity|]. intros i a Hi.
  destruct (patient_sees_only_own_rows (1, example.alice) 100 (Some 1)
              example.clinic eq_refl) as (H & _ & _).
  apply (H _ i a (or_introl eq_refl) Hi).
Defined.

(** ** Dashboard permission *)

Lemma check_permissions_is_staff u :
  DashboardViewSet.check_permissions u = is_staff u.2.
Proof.
  unfold DashboardViewSet.check_permissions, DashboardViewSet.permission_classes,
    DashboardViewSet.IsAdminUser.
  simpl. apply andb_true_r.
Qed.

(** C8.  The dashboard gate reads [is_staff], never [role]: [stats] and
    [recent_activity] answer 200 exactly for staff users.  A user registered
    with role admin is not staff and is refused; a staff user whose role is
    patient is served. *)
Theorem dashboard_gate_reads_is_staff :
  (∀ u s, DashboardViewSet.stats u s = HTTP_200_OK ↔ is_staff u.2 = true)
  ∧ (∀ u s, DashboardViewSet.recent_activity u s = HTTP_200_OK ↔ is_staff u.2 = true)
  ∧ role example.registered_admin = Admin
  ∧ DashboardViewSet.stats (5, example.registered_admin) example.clinic
    = DashboardViewSet.permission_denied
  ∧ DashboardViewSet.recent_activity (5, example.registered_admin) example.clinic
    = DashboardViewSet.permission_denied
  ∧ role example.staff_patient = Patient
  ∧ DashboardViewSet.stats (6, example.staff_patient) example.clinic = HTTP_200_OK.
Proof.
  split_and!; try reflexivity.
  - intros u s. unfold DashboardViewSet.stats.
    rewrite check_permissions_is_staff. destruct (is_staff u.2); split; done.
  - intros u s. unfold DashboardViewSet.recent_activity.
    rewrite check_permissions_is_staff. destruct (is_staff u.2); split; done.
Qed.

(** ** Medical-record validation *)

(** C6.  Once patient, doctor and appointment resolve, validation of a
    medical record fails with the mismatch error exactly when the
    appointment's patient or doctor differs from the supplied ids, the
    create endpoint then answers 400 with that error and writes nothing;
    when both match, validation succeeds and the record is created. *)
Theorem record_appointment_mismatch (s : DB) (attrs : MedicalRecordAttrs)
    (p d : Z * User) (a : Appointment) :
  get_user s (mr_patient_id attrs) Patient = Some p →
  get_user s (mr_doctor_id attrs) Doctor = Some d →
  appointments s !! appointment_id attrs = Some a →
  (patient a ≠ mr_patient_id attrs ∨ doctor a ≠ mr_doctor_id attrs →
     validate_medical_record s attrs = ValidationError mismatch_msg
     ∧ ∀ init_fk u now,
         MedicalRecordViewSet.create init_fk u attrs now s
         = (HTTP_400_BAD_REQUEST mismatch_msg, s))
  ∧ (patient a = mr_patient_id attrs ∧ doctor a = mr_doctor_id attrs →
     validate_medical_record s attrs = Valid attrs
     ∧ ∀ init_fk u now,
         (MedicalRecordViewSet.create init_fk u attrs now s).1 = HTTP_201_CREATED).
Proof.
  intros Hp Hd Ha.
  assert (Hp1 : p.1 = mr_patient_id attrs) by (by apply get_user_Some in Hp as [? _]).
  assert (Hd1 : d.1 = mr_doctor_id attrs) by (by apply get_user_Some in Hd as [? _]).
  unfold MedicalRecordViewSet.create, validate_medical_record.
  rewrite Hp, Hd, Ha, Hp1, Hd1. split.
  - intros Hne.
    assert (bool_decide (patient a ≠ mr_patient_id attrs)
            || bool_decide (doctor a ≠ mr_doctor_id attrs) = true) as ->.
    { destruct Hne as [Hne|Hne].
      - rewrite (bool_decide_eq_true_2 _ Hne). reflexivity.
      - rewrite (bool_decide_eq_true_2 _ Hne). apply orb_true_r. }
    split; reflexivity.
  - intros [Hpa Hda].
    rewrite !bool_decide_eq_false_2 by (intros Hne; contradiction).
    split; reflexivity.
Qed.

Lemma record_appointment_mismatch_witness :
  validate_medical_record example.clinic (example.record_attrs 3 2 1)
  = ValidationError mismatch_msg
  ∧ validate_medical_record example.clinic (example.record_attrs 1 2 1)
    = Valid (example.record_attrs 1 2 1).
Proof.
  split.
  - apply (record_appointment_mismatch example.clinic (example.record_attrs 3 2 1)
             (3, example.bob) (2, example.dr_grey)
             (example.appointment 1 2 1000 Pending) eq_refl eq_refl eq_refl).
    left. vm_compute. discriminate.
  - apply (record_appointment_mismatch example.clinic (example.record_attrs 1 2 1)
             (1, example.alice) (2, example.dr_grey)
             (example.appointment 1 2 1000 Pending) eq_refl eq_refl eq_refl).
    split; reflexivity.
Defined.

(** ** Saving an appointment *)

Lemma clash_empty (m : gmap Z Appointment) pk a :
  unique_together_clash m pk a = ∅ ↔
  ∀ j b, m !! j = Some b → j ≠ pk →
         doctor b = doctor a → date_time b = date_time a → False.
Proof.
  unfold unique_together_clash. rewrite map_empty. split.
  - intros H j b Hj Hne Hd Ht.
    specialize (H j). apply map_lookup_filter_None in H as [H|H].
    + congruence.
    + apply (H b Hj). simpl. auto.
  - intros H j. apply map_lookup_filter_None. right.
    intros b Hj (Hne & Hd & Ht). simpl in *. eauto.
Qed.

Lemma save_Some now pk a s s' :
  save now pk a s = Some s' ↔
  unique_together_clash (appointments s) pk a = ∅
  ∧ s' = set_appointments (<[pk := set_updated_at now a]> (appointments s)) s.
Proof.
  unfold save. rewrite <- first_None.
  destruct (first _); split; intros H; try done.
  - destruct H; done.
  - injection H as <-. done.
  - destruct H as [_ ->]. done.
Qed.

Lemma save_None now pk a s :
  save now pk a s = None ↔ unique_together_clash (appointments s) pk a ≠ ∅.
Proof.
  unfold save. rewrite <- first_None. destruct (first _); split; done.
Qed.

Lemma unique_together_alt (m : gmap Z Appointment) :
  unique_together m ↔
  ∀ i j a b, m !! i = Some a → m !! j = Some b →
             doctor a = doctor b → date_time a = date_time b → i = j.
Proof.
  unfold unique_together, map_Forall. split.
  - intros H i j a b Hi Hj. exact (H i a Hi j b Hj).
  - intros H i a Hi j b Hj. exact (H i j a b Hi Hj).
Qed.

Lemma unique_together_subseteq (m m' : gmap Z Appointment) :
  m' ⊆ m → unique_together m → unique_together m'.
Proof.
  rewrite !unique_together_alt. intros Hsub H i j a b Hi Hj.
  apply (H i j a b); eauto using lookup_weaken.
Qed.

Lemma save_unique_together now pk a s s' :
  unique_together (appointments s) → save now pk a s = Some s' →
  unique_together (appointments s').
Proof.
  rewrite !unique_together_alt. intros H [Hclash ->]%save_Some.
  rewrite clash_empty in Hclash. simpl.
  intros i j x y Hi Hj Hd Ht.
  destruct (decide (i = pk)) as [->|Hi'], (decide (j = pk)) as [->|Hj']; [done|..].
  - rewrite lookup_insert_eq in Hi. rewrite lookup_insert_ne in Hj by done.
    injection Hi as <-. simpl in *. exfalso. eapply (Hclash j y); eauto.
  - rewrite lookup_insert_eq in Hj. rewrite lookup_insert_ne in Hi by done.
    injection Hj as <-. simpl in *. exfalso. eapply (Hclash i x); eauto.
  - rewrite lookup_insert_ne in Hi, Hj by done. eauto.
Qed.

(** Rewriting a row without touching its doctor and time cannot clash. *)
Lemma save_same_slot now pk a a' s :
  unique_together (appointments s) →
  appointments s !! pk = Some a →
  doctor a' = doctor a → date_time a' = date_time a →
  save now pk a' s
  = Some (set_appointments (<[pk := set_updated_at now a']> (appointments s)) s).
Proof.
  rewrite unique_together_alt. intros H Hpk Hd Ht.
  apply save_Some. split; [|done]. apply clash_empty.
  intros j b Hj Hne Hd' Ht'. apply Hne. apply (H j pk b a); congruence.
Qed.

(** ** The action endpoints *)

Lemma run_outcome act u pk now s : outcome act u pk now s (run act u pk now s).
Proof.
  destruct act; simpl;
    unfold AppointmentViewSet.confirm, AppointmentViewSet.complete,
      AppointmentViewSet.cancel;
    destruct (get_object (AppointmentViewSet.get_queryset u s) pk) as [a|] eqn:Hget;
    try (by apply outcome_not_found).
  - destruct (negb (is_doctor u) || bool_decide (doctor a ≠ u.1)) eqn:Hperm.
    { eapply outcome_forbidden; [done|]. simpl. intros [Hr Hd].
      unfold is_doctor in Hperm. rewrite (bool_decide_eq_true_2 _ Hr) in Hperm.
      simpl in Hperm. by apply bool_decide_eq_true in Hperm. }
    apply orb_false_iff in Hperm as [Hr%negb_false_iff Hd%bool_decide_eq_false].
    apply bool_decide_eq_true in Hr. apply dec_stable in Hd.
    case_bool_decide as Hst.
    { eapply outcome_invalid; done. }
    destruct (save _ _ _ _) eqn:Hsave.
    + eapply (outcome_done Confirm); done.
    + eapply (outcome_integrity Confirm); done.
  - destruct (negb (is_doctor u) || bool_decide (doctor a ≠ u.1)) eqn:Hperm.
    { eapply outcome_forbidden; [done|]. simpl. intros [Hr Hd].
      unfold is_doctor in Hperm. rewrite (bool_decide_eq_true_2 _ Hr) in Hperm.
      simpl in Hperm. by apply bool_decide_eq_true in Hperm. }
    apply orb_false_iff in Hperm as [Hr%negb_false_iff Hd%bool_decide_eq_false].
    apply bool_decide_eq_true in Hr. apply dec_stable in Hd.
    case_bool_decide as Hst.
    { eapply outcome_invalid; done. }
    destruct (save _ _ _ _) eqn:Hsave.
    + eapply (outcome_done Complete); done.
    + eapply (outcome_integrity Complete); done.
  - assert (Hp : bool_decide (u.1 = patient a) || bool_decide (u.1 = doctor a)
                 || is_admin u = true ↔ permitted Cancel u a).
    { unfold is_admin. rewrite !orb_true_iff, !bool_decide_eq_true. simpl. tauto. }
    assert (Hg : can_be_cancelled now a = true ↔ guard Cancel now a).
    { unfold can_be_cancelled, is_upcoming.
      rewrite andb_true_iff, !bool_decide_eq_true. simpl.
      rewrite !elem_of_cons, elem_of_nil. tauto. }
    destruct (_ || _ || is_admin u) eqn:Hperm; simpl.
    2:{ eapply outcome_forbidden; [done|]. rewrite <- Hp. done. }
    destruct (can_be_cancelled now a) eqn:Hcan; simpl.
    2:{ eapply outcome_invalid; [done|by apply Hp|]. rewrite <- Hg. done. }
    destruct (save _ _ _ _) eqn:Hsave.
    + eapply (outcome_done Cancel); [done|by apply Hp|by apply Hg|done].
    + eapply (outcome_integrity Cancel); [done|by apply Hp|by apply Hg|done].
Qed.

Lemma scope_lookup u s pk a :
  get_object (AppointmentViewSet.get_queryset u s) pk = Some a →
  appointments s !! pk = Some a.
Proof.
  unfold get_object, AppointmentViewSet.get_queryset.
  destruct (is_admin u); [done|].
  destruct (is_doctor u); by intros [? _]%map_lookup_filter_Some.
Qed.

Lemma guard_source act now a : guard act now a → source act (status a).
Proof. destruct act; simpl; tauto. Qed.

Lemma outcome_not_done act u pk now s r s' :
  outcome act u pk now s (r, s') → r ≠ HTTP_200_OK → s' = s.
Proof. inversion 1; subst; done. Qed.

Lemma outcome_200 act u pk now s r s' :
  outcome act u pk now s (r, s') → r = HTTP_200_OK →
  ∃ a, get_object (AppointmentViewSet.get_queryset u s) pk = Some a
       ∧ permitted act u a ∧ guard act now a
       ∧ s' = set_appointments
                (<[pk := set_updated_at now (set_status (target act) a)]>
                   (appointments s)) s.
Proof.
  inversion 1; subst; try done. intros _.
  match goal with H : save _ _ _ _ = Some _ |- _ => apply save_Some in H as [_ ->] end.
  eauto 10.
Qed.

(** The three actions and the state machine.  Under [confirm], [complete]
    and [cancel] every appointment keeps
    its status, except the target of a successful request, which moves along
    pending→confirmed (confirm), confirmed→completed (complete) or
    pending/confirmed→cancelled (cancel).  A request made from any other
    status never succeeds and leaves the database as it was; once it has
    passed the scope and permission tests it is answered 400, the invalid
    transition response. *)
Theorem status_moves_follow_machine (act : Action) (u : Z * User) (pk now : Z)
    (s : DB) :
  (∀ j b, appointments s !! j = Some b →
     ∃ b', appointments (run act u pk now s).2 !! j = Some b'
           ∧ (status b' = status b
              ∨ (j = pk ∧ (run act u pk now s).1 = HTTP_200_OK
                 ∧ transition act (status b) (status b'))))
  ∧ (∀ a, appointments s !! pk = Some a → ¬ source act (status a) →
       (run act u pk now s).1 ≠ HTTP_200_OK
       ∧ (run act u pk now s).2 = s
       ∧ (get_object (AppointmentViewSet.get_queryset u s) pk = Some a →
          permitted act u a →
          ∃ msg, (run act u pk now s).1 = HTTP_400_BAD_REQUEST msg)).
Proof.
  pose proof (run_outcome act u pk now s) as Hout.
  destruct (run act u pk now s) as [r s'] eqn:Hrun. simpl. split.
  - intros j b Hj.
    destruct (decide (r = HTTP_200_OK)) as [Hr|Hr].
    + destruct (outcome_200 _ _ _ _ _ _ _ Hout Hr) as (a & Hget & _ & Hg & ->).
      apply scope_lookup in Hget. simpl.
      destruct (decide (j = pk)) as [->|Hne].
      * rewrite lookup_insert_eq. eexists; split; [done|]. right.
        assert (b = a) as -> by congruence.
        split_and!; [done..|]. destruct act; simpl in *; tauto.
      * rewrite lookup_insert_ne by done. eauto.
    + rewrite (outcome_not_done _ _ _ _ _ _ _ Hout Hr). eauto.
  - intros a Ha Hsrc.
    assert (Hr : r ≠ HTTP_200_OK).
    { intros Hr. destruct (outcome_200 _ _ _ _ _ _ _ Hout Hr) as (a' & Hget & _ & Hg & _).
      apply scope_lookup in Hget. assert (a' = a) as -> by congruence.
      eauto using guard_source. }
    split_and!; [done|eauto using outcome_not_done|].
    intros Hget Hperm.
    inversion Hout as [ H1 | a0 msg H1 H2 | a0 msg H1 H2 H3 | a0 H1 H2 H3 H4
                      | a0 s0 H1 H2 H3 H4 ]; subst.
    + congruence.
    + assert (a0 = a) as -> by congruence. contradiction.
    + eauto.
    + assert (a0 = a) as -> by congruence. exfalso. eauto using guard_source.
    + done.
Qed.

Lemma status_moves_follow_machine_witness :
  (∃ b', appointments
           (run Confirm (2, example.dr_grey) 1 100 example.clinic).2 !! 1 = Some b'
         ∧ (status b' = Pending
            ∨ (1 = 1 ∧ (run Confirm (2, example.dr_grey) 1 100 example.clinic).1
                       = HTTP_200_OK
               ∧ transition Confirm Pending (status b'))))
  ∧ (run Confirm (2, example.dr_grey) 3 100 example.clinic).2 = example.clinic.
Proof.
  split.
  - apply (proj1 (status_moves_follow_machine Confirm (2, example.dr_grey) 1 100
                    example.clinic) 1 (example.appointment 1 2 1000 Pending)).
    reflexivity.
  - apply (proj2 (status_moves_follow_machine Confirm (2, example.dr_grey) 3 100
                    example.clinic) (example.appointment 1 2 50 Completed)).
    + reflexivity.
    + simpl. discriminate.
Defined.

(** The three actions and terminal states.  [confirm], [complete] and
    [cancel] delete no
    appointment, and an appointment whose status is completed or cancelled
    comes out of them exactly as it went in. *)
Theorem actions_keep_terminal_appointments (act : Action) (u : Z * User)
    (pk now : Z) (s : DB) (j : Z) (b : Appointment) :
  appointments s !! j = Some b →
  is_Some (appointments (run act u pk now s).2 !! j)
  ∧ (terminal (status b) → appointments (run act u pk now s).2 !! j = Some b).
Proof.
  intros Hj.
  pose proof (run_outcome act u pk now s) as Hout.
  destruct (run act u pk now s) as [r s'] eqn:Hrun. simpl.
  destruct (decide (r = HTTP_200_OK)) as [Hr|Hr].
  - destruct (outcome_200 _ _ _ _ _ _ _ Hout Hr) as (a & Hget & _ & Hg & ->).
    apply scope_lookup in Hget. simpl.
    destruct (decide (j = pk)) as [->|Hne].
    + rewrite lookup_insert_eq. split; [eauto|].
      assert (b = a) as -> by congruence.
      apply guard_source in Hg. intros [Ht|Ht]; destruct act; simpl in Hg;
        rewrite Ht in Hg; intuition discriminate.
    + rewrite lookup_insert_ne by done. eauto.
  - rewrite (outcome_not_done _ _ _ _ _ _ _ Hout Hr). eauto.
Qed.

Lemma actions_keep_terminal_appointments_witness :
  is_Some (appointments
             (run Cancel (3, example.bob) 4 100 example.clinic).2 !! 4)
  ∧ (terminal Cancelled →
     appointments (run Cancel (3, example.bob) 4 100 example.clinic).2 !! 4
     = Some (example.appointment 3 4 3000 Cancelled)).
Proof.
  apply (actions_keep_terminal_appointments Cancel (3, example.bob) 4 100
           example.clinic 4 (example.appointment 3 4 3000 Cancelled)).
  reflexivity.
Defined.


(** ** What a successful action writes *)

(** C10.  A successful [confirm], [complete] or [cancel] rewrites the target
    row with the new status and a fresh [updated_at]; its patient, doctor,
    date_time, reason, notes and created_at are the old ones, every other
    appointment is untouched, and so are the medical records, the users and
    the patient profiles. *)
Theorem action_writes_status_only (act : Action) (u : Z * User) (pk now : Z)
    (s : DB) (a : Appointment) :
  appointments s !! pk = Some a →
  (run act u pk now s).1 = HTTP_200_OK →
  (∃ a', appointments (run act u pk now s).2 !! pk = Some a'
         ∧ status a' = target act ∧ updated_at a' = now
         ∧ patient a' = patient a ∧ doctor a' = doctor a
         ∧ date_time a' = date_time a ∧ reason a' = reason a
         ∧ notes a' = notes a ∧ created_at a' = created_at a)
  ∧ (∀ j, j ≠ pk →
       appointments (run act u pk now s).2 !! j = appointments s !! j)
  ∧ medical_records (run act u pk now s).2 = medical_records s
  ∧ users (run act u pk now s).2 = users s
  ∧ patient_profiles (run act u pk now s).2 = patient_profiles s.
Proof.
  intros Ha Hr.
  pose proof (run_outcome act u pk now s) as Hout.
  destruct (run act u pk now s) as [r s'] eqn:Hrun. simpl in *.
  destruct (outcome_200 _ _ _ _ _ _ _ Hout Hr) as (a' & Hget & _ & _ & ->).
  apply scope_lookup in Hget. assert (a' = a) as -> by congruence. simpl.
  split_and!; try reflexivity.
  - rewrite lookup_insert_eq. eexists. split; [reflexivity|]. simpl. done.
  - intros j Hne. by rewrite lookup_insert_ne.
Qed.

Lemma action_writes_status_only_witness :
  (run Complete (2, example.dr_grey) 2 100 example.clinic).1 = HTTP_200_OK
  ∧ ∀ j, j ≠ 2 →
      appointments (run Complete (2, example.dr_grey) 2 100 example.clinic).2 !! j
      = appointments example.clinic !! j.
Proof.
  split; [reflexivity|].
  apply (action_writes_status_only Complete (2, example.dr_grey) 2 100
           example.clinic (example.appointment 3 2 2000 Confirmed));
    reflexivity.
Defined.

(** ** Double booking *)

Lemma unique_together_empty : unique_together ∅.
Proof. apply unique_together_alt. intros i j a b Hi. by rewrite lookup_empty in Hi. Qed.

Lemma unique_no_double_booking (m : gmap Z Appointment) :
  unique_together m → no_double_booking m.
Proof.
  rewrite unique_together_alt. intros H D T i j a b Hi Hj Hd Ht _ Hd' Ht' _.
  apply (H i j a b); congruence.
Qed.

Lemma run_unique_together act u pk now s :
  unique_together (appointments s) →
  unique_together (appointments (run act u pk now s).2).
Proof.
  intros Huniq. pose proof (run_outcome act u pk now s) as Hout.
  destruct (run act u pk now s) as [r s'].
  inversion Hout; subst; simpl; eauto using save_unique_together.
Qed.

Lemma dispatch_unique_together init_fk u req now s :
  unique_together (appointments s) →
  unique_together (appointments (dispatch init_fk u req now s).2).
Proof.
  intros Huniq.
  destruct req as [pk row|pk|attrs|pk attrs|pk|pk|pk|pk|attrs|pk ch|pk|rows]; simpl.
  - done.
  - eapply unique_together_subseteq; [apply map_filter_subseteq|done].
  - unfold AppointmentViewSet.create.
    destruct (validate s now attrs) as [attrs'|msg]; [|done].
    destruct (AppointmentViewSet.perform_create _ _ _ _ _) as [s'|] eqn:Hc; [|done].
    unfold AppointmentViewSet.perform_create, AppointmentViewSet.serializer_save in Hc.
    simpl. destruct (is_patient u); eauto using save_unique_together.
  - unfold AppointmentViewSet.update.
    destruct (get_object _ _) as [instance|]; [|done].
    destruct (validate s now attrs) as [attrs'|msg]; [|done].
    destruct (save _ _ _ _) as [s'|] eqn:Hsave; simpl; eauto using save_unique_together.
  - unfold AppointmentViewSet.destroy.
    destruct (get_object _ _) as [instance|]; [|done]. simpl.
    eapply unique_together_subseteq; [apply delete_subseteq|done].
  - apply (run_unique_together Confirm); done.
  - apply (run_unique_together Complete); done.
  - apply (run_unique_together Cancel); done.
  - unfold MedicalRecordViewSet.create.
    destruct (validate_medical_record s attrs); [|done].
    unfold MedicalRecordViewSet.perform_create, MedicalRecordViewSet.serializer_save.
    destruct (is_doctor u); done.
  - unfold MedicalRecordWrites.update.
    destruct (get_object _ pk); [|done].
    destruct (validate_medical_record s _); done.
  - unfold MedicalRecordWrites.destroy. destruct (get_object _ pk); done.
  - done.
Qed.

Lemma reachable_unique_together init_fk s :
  reachable init_fk s → unique_together (appointments s).
Proof.
  induction 1 as [us pp|s u req now _ IH]; simpl.
  - apply unique_together_empty.
  - by apply dispatch_unique_together.
Qed.

Lemma validate_booked s now attrs p d j b :
  get_user s (patient_id attrs) Patient = Some p →
  get_user s (doctor_id attrs) Doctor = Some d →
  now < attrs_date_time attrs →
  appointments s !! j = Some b →
  doctor b = doctor_id attrs → date_time b = attrs_date_time attrs →
  status b ∈ [Pending; Confirmed] →
  validate s now attrs = ValidationError booked_msg.
Proof.
  intros Hp Hd Hnow Hj Hdb Htb Hst. unfold validate. rewrite Hp, Hd.
  rewrite bool_decide_eq_false_2 by lia.
  apply get_user_Some in Hd as [-> _].
  destruct (first _) eqn:Hfirst; [done|].
  apply (first_None_lookup _ j) in Hfirst.
  apply map_lookup_filter_None in Hfirst as [Hfirst|Hfirst]; [congruence|].
  exfalso. apply (Hfirst b Hj). simpl. done.
Qed.

Lemma validate_free s now attrs p d :
  get_user s (patient_id attrs) Patient = Some p →
  get_user s (doctor_id attrs) Doctor = Some d →
  now < attrs_date_time attrs →
  (∀ j b, appointments s !! j = Some b →
          doctor b = doctor_id attrs → date_time b = attrs_date_time attrs →
          status b ∉ [Pending; Confirmed]) →
  validate s now attrs = Valid attrs.
Proof.
  intros Hp Hd Hnow Hfree. unfold validate. rewrite Hp, Hd.
  rewrite bool_decide_eq_false_2 by lia.
  apply get_user_Some in Hd as [-> _].
  destruct (first _) as [x|] eqn:Hfirst; [|done].
  apply first_Some_lookup in Hfirst.
  apply map_lookup_filter_Some in Hfirst as (Hx & Hdx & Htx & Hsx). simpl in *.
  exfalso. eapply Hfree; eauto.
Qed.

Lemma validate_Valid s now attrs attrs' :
  validate s now attrs = Valid attrs' → attrs' = attrs.
Proof.
  unfold validate.
  destruct (get_user s (patient_id attrs) Patient); [|done].
  destruct (get_user s (doctor_id attrs) Doctor); [|done].
  case_bool_decide; [done|]. destruct (first _); congruence.
Qed.

Lemma create_unchanged_or_created init_fk u attrs now s :
  (AppointmentViewSet.create init_fk u attrs now s).1 ≠ HTTP_201_CREATED →
  (AppointmentViewSet.create init_fk u attrs now s).2 = s.
Proof.
  unfold AppointmentViewSet.create.
  destruct (validate s now attrs); [|done].
  destruct (AppointmentViewSet.perform_create _ _ _ _ _); done.
Qed.

Lemma perform_create_clash init_fk u attrs now s j b :
  appointments s !! j = Some b →
  doctor b = doctor_id attrs → date_time b = attrs_date_time attrs →
  AppointmentViewSet.perform_create init_fk u attrs now s = None.
Proof.
  intros Hj Hd Ht.
  assert (Hfresh : j ≠ next_pk (appointments s)).
  { intros ->. by rewrite next_pk_unused in Hj. }
  unfold AppointmentViewSet.perform_create, AppointmentViewSet.serializer_save.
  destruct (is_patient u); apply save_None; rewrite clash_empty;
    intros Hclash; eapply (Hclash j b); eauto.
Qed.

(** Double booking, what holds.  (a) In every database the API can reach,
    at most one non-cancelled
    appointment exists for a doctor and a time.  (b) While a non-cancelled
    appointment holds the doctor and time of a create request, the request
    fails and writes nothing; once its patient, doctor and time are
    accepted, the failure is the double-booking error of [validate] or the
    integrity error of [unique_together], and it is the former whenever the
    holder is pending or confirmed.  (c) When no non-cancelled appointment
    holds them, the double-booking check of [validate] passes. *)
Theorem no_double_booking_on_create :
  (∀ init_fk s, reachable init_fk s → no_double_booking (appointments s))
  ∧ (∀ init_fk u attrs now s j b,
       appointments s !! j = Some b →
       doctor b = doctor_id attrs → date_time b = attrs_date_time attrs →
       status b ≠ Cancelled →
       (AppointmentViewSet.create init_fk u attrs now s).1 ≠ HTTP_201_CREATED
       ∧ (AppointmentViewSet.create init_fk u attrs now s).2 = s
       ∧ (is_Some (get_user s (patient_id attrs) Patient) →
          is_Some (get_user s (doctor_id attrs) Doctor) →
          now < attrs_date_time attrs →
          ((AppointmentViewSet.create init_fk u attrs now s).1
             = HTTP_400_BAD_REQUEST booked_msg
           ∨ (AppointmentViewSet.create init_fk u attrs now s).1 = IntegrityError)
          ∧ (status b ∈ [Pending; Confirmed] →
             (AppointmentViewSet.create init_fk u attrs now s).1
             = HTTP_400_BAD_REQUEST booked_msg)))
  ∧ (∀ attrs now s,
       (∀ j b, appointments s !! j = Some b →
               doctor b = doctor_id attrs → date_time b = attrs_date_time attrs →
               status b = Cancelled) →
       is_Some (get_user s (patient_id attrs) Patient) →
       is_Some (get_user s (doctor_id attrs) Doctor) →
       now < attrs_date_time attrs →
       validate s now attrs = Valid attrs).
Proof.
  split_and!.
  - intros init_fk s Hs.
    eauto using unique_no_double_booking, reachable_unique_together.
  - intros init_fk u attrs now s j b Hj Hd Ht Hst.
    assert (Hfail : (AppointmentViewSet.create init_fk u attrs now s).1
                    ≠ HTTP_201_CREATED).
    { unfold AppointmentViewSet.create.
      destruct (validate s now attrs) as [attrs'|msg] eqn:Hv; [|done].
      apply validate_Valid in Hv as ->.
      by rewrite (perform_create_clash init_fk u _ now s j b Hj Hd Ht). }
    split_and!; [done|by apply create_unchanged_or_created|].
    intros [p Hp] [d Hdoc] Hnow. split.
    + unfold AppointmentViewSet.create.
      destruct (validate s now attrs) as [attrs'|msg] eqn:Hv.
      * right. apply validate_Valid in Hv as ->.
        by rewrite (perform_create_clash init_fk u _ now s j b Hj Hd Ht).
      * left. unfold validate in Hv. rewrite Hp, Hdoc in Hv.
        rewrite bool_decide_eq_false_2 in Hv by lia.
        destruct (first _); [|done]. by injection Hv as <-.
    + intros Hactive. unfold AppointmentViewSet.create.
      by rewrite (validate_booked s now attrs p d j b).
  - intros attrs now s Hfree [p Hp] [d Hd] Hnow.
    apply (validate_free s now attrs p d); [done..|].
    intros j b Hj Hdb Htb Hin. rewrite (Hfree j b Hj Hdb Htb) in Hin.
    rewrite !elem_of_cons, elem_of_nil in Hin. intuition discriminate.
Qed.

Lemma no_double_booking_on_create_witness :
  no_double_booking
    (appointments
       (dispatch (λ p _, p) (1, example.alice)
          (AppointmentCreate (example.attrs 1 2 1000 None)) 100
          {| users := example.some_users; appointments := ∅;
             medical_records := ∅; patient_profiles := ∅ |}).2)
  ∧ (AppointmentViewSet.create (λ p _, p) (3, example.bob)
       (example.attrs 3 2 1000 None) 100 example.clinic).1
    = HTTP_400_BAD_REQUEST booked_msg
  ∧ validate example.clinic 100 (example.attrs 3 4 3000 None)
    = Valid (example.attrs 3 4 3000 None).
Proof.
  destruct no_double_booking_on_create as (Ha & Hb & Hc). split_and!.
  - apply (Ha (λ p _, p)). apply reachable_request, reachable_initial.
  - destruct (Hb (λ p _, p) (3, example.bob) (example.attrs 3 2 1000 None) 100
                example.clinic 1 (example.appointment 1 2 1000 Pending)
                eq_refl eq_refl eq_refl) as (_ & _ & H); [discriminate|].
    destruct H as [_ H].
    + exists (3, example.bob). reflexivity.
    + exists (2, example.dr_grey). reflexivity.
    + simpl. lia.
    + apply H. simpl. apply list_elem_of_here.
  - apply (Hc (example.attrs 3 4 3000 None) 100 example.clinic).
    + intros j b Hj Hd Ht. simpl in Hd, Ht.
      destruct (decide (j = 4)) as [->|Hne].
      * vm_compute in Hj. by injection Hj as <-.
      * exfalso. revert Hj Hd Ht. unfold example.clinic. simpl.
        rewrite !lookup_insert.
        repeat (case_decide; [intros [= <-]; simpl; try lia; try congruence|]).
        by rewrite lookup_empty.
    + vm_compute. eauto.
    + vm_compute. eauto.
    + simpl. lia.
Defined.

(** ** The most common diagnoses *)

Section diagnoses.

Import DashboardViewSet.

Lemma Count_pos d rows : d ∈ rows → (0 < Count d rows)%nat.
Proof.
  intros Hd. unfold Count.
  assert (Hin : d ∈ filter (λ x, x = d) rows).
  { apply list_elem_of_filter. split; [reflexivity|exact Hd]. }
  destruct (filter _ rows); [by apply elem_of_nil in Hin|simpl; lia].
Qed.

Lemma Count_perm d rows rows' : rows ≡ₚ rows' → Count d rows = Count d rows'.
Proof. intros H. unfold Count. by rewrite H. Qed.

Lemma elem_of_annotate_count rows d n :
  (d, n) ∈ annotate_count rows ↔ d ∈ rows ∧ n = Count d rows.
Proof.
  unfold annotate_count. rewrite list_elem_of_fmap. split.
  - intros (d' & Heq & Hd). rewrite elem_of_remove_dups in Hd.
    injection Heq as -> ->. split; [assumption|reflexivity].
  - intros [Hd ->]. exists d. split; [done|]. by rewrite elem_of_remove_dups.
Qed.

Lemma annotate_count_fst rows : (annotate_count rows).*1 = remove_dups rows.
Proof.
  unfold annotate_count. rewrite <- list_fmap_compose.
  rewrite <- (list_fmap_id (remove_dups rows)) at 2.
  by apply list_fmap_ext.
Qed.

Lemma NoDup_annotate_count_fst rows : NoDup (annotate_count rows).*1.
Proof. rewrite annotate_count_fst. apply NoDup_remove_dups. Qed.

Lemma annotate_count_perm rows rows' :
  rows ≡ₚ rows' → annotate_count rows ≡ₚ annotate_count rows'.
Proof.
  intros Hperm. apply NoDup_Permutation.
  - eapply NoDup_fmap_1, NoDup_annotate_count_fst.
  - eapply NoDup_fmap_1, NoDup_annotate_count_fst.
  - intros [d n]. rewrite !elem_of_annotate_count.
    rewrite (Count_perm d rows rows' Hperm). by rewrite Hperm.
Qed.

Lemma Sorted_take {A} (R : relation A) n l : Sorted R l → Sorted R (take n l).
Proof.
  intros Hl. revert n. induction Hl as [|x l Hl IH Hhd]; intros [|n]; simpl;
    try constructor; auto.
  destruct Hhd; destruct n; simpl; constructor; done.
Qed.

(** The first-seen order of the specification. *)

Lemma elem_of_first_seen rows d : d ∈ first_seen rows ↔ d ∈ rows.
Proof.
  induction rows as [|r rows IH]; simpl; [done|].
  rewrite !elem_of_cons, list_elem_of_filter, IH.
  destruct (decide (d = r)); tauto.
Qed.

Lemma NoDup_first_seen rows : NoDup (first_seen rows).
Proof.
  induction rows as [|r rows IH]; simpl; constructor.
  - rewrite list_elem_of_filter. intros [Hne _]. by apply Hne.
  - by apply NoDup_filter.
Qed.

Lemma group_count_perm rows : group_count rows ≡ₚ annotate_count rows.
Proof.
  unfold group_count, annotate_count. apply fmap_Permutation.
  apply NoDup_Permutation.
  - apply NoDup_first_seen.
  - apply NoDup_remove_dups.
  - intros d. by rewrite elem_of_first_seen, elem_of_remove_dups.
Qed.

Lemma insert_desc_perm g l : insert_desc g l ≡ₚ g :: l.
Proof.
  induction l as [|h l IH]; simpl; [done|].
  destruct (g.2 <? h.2)%nat; [|done]. rewrite IH. apply perm_swap.
Qed.

Lemma sort_desc_perm l : sort_desc l ≡ₚ l.
Proof.
  induction l as [|g l IH]; simpl; [done|].
  rewrite insert_desc_perm. by rewrite IH.
Qed.

Lemma insert_desc_Sorted g l :
  Sorted count_desc l → Sorted count_desc (insert_desc g l).
Proof.
  induction 1 as [|h l Hl IH Hhd]; simpl.
  - repeat constructor.
  - destruct (Nat.ltb_spec g.2 h.2) as [Hlt|Hge].
    + constructor; [done|].
      destruct Hhd as [|k l Hk]; simpl.
      * constructor. unfold count_desc. lia.
      * destruct (g.2 <? k.2)%nat; constructor; [done|unfold count_desc; lia].
    + constructor; [by constructor|]. constructor. unfold count_desc. lia.
Qed.

Lemma sort_desc_Sorted l : Sorted count_desc (sort_desc l).
Proof.
  induction l as [|g l IH]; simpl; [constructor|by apply insert_desc_Sorted].
Qed.

End diagnoses.

(** C7, as the code has it.  [common_diagnoses] holds one entry per distinct
    diagnosis text with the number of records that carry it, in descending
    order of count, cut to the first five: no text that is left out has more
    records than one that is listed.  The query fixes no order among equal
    counts; the first-seen order of the specification is one of the answers
    it admits, for whatever order the records are seen in.  On a store with
    diagnoses flu, flu, cold the answer is flu with 2, then cold with 1. *)
Theorem common_diagnoses_top5 (s : DB) (res : list (string * nat)) :
  DashboardViewSet.common_diagnoses s res →
  NoDup res.*1
  ∧ (∀ d n, (d, n) ∈ res →
       d ∈ DashboardViewSet.diagnoses s
       ∧ n = DashboardViewSet.Count d (DashboardViewSet.diagnoses s))
  ∧ Sorted DashboardViewSet.count_desc res
  ∧ length res = (5 `min` length (remove_dups (DashboardViewSet.diagnoses s)))%nat
  ∧ (∀ d e, d ∈ DashboardViewSet.diagnoses s → d ∉ res.*1 → e ∈ res →
       (DashboardViewSet.Count d (DashboardViewSet.diagnoses s) ≤ e.2)%nat)
  ∧ (∀ rows, rows ≡ₚ DashboardViewSet.diagnoses s →
       DashboardViewSet.common_diagnoses s (top5_diagnoses rows))
  ∧ (DashboardViewSet.diagnoses s ≡ₚ ["flu"; "flu"; "cold"] →
       res = [("flu", 2%nat); ("cold", 1%nat)]).
Proof.
  intros (l & [Hperm Hsorted] & ->).
  set (rows := DashboardViewSet.diagnoses s) in *.
  assert (Hnodup : NoDup l.*1).
  { rewrite Hperm. apply NoDup_annotate_count_fst. }
  assert (Helem : ∀ d n, (d, n) ∈ l ↔ d ∈ rows ∧ n = DashboardViewSet.Count d rows).
  { intros d n. rewrite Hperm. apply elem_of_annotate_count. }
  split_and!.
  - rewrite fmap_take. eapply sublist_NoDup; [exact Hnodup|apply sublist_take].
  - intros d n Hin. apply Helem. by apply (subseteq_take 5 l).
  - by apply Sorted_take.
  - rewrite length_take, Hperm. unfold DashboardViewSet.annotate_count.
    by rewrite length_fmap.
  - intros d e Hd Hout He.
    assert (Hin : (d, DashboardViewSet.Count d rows) ∈ (take 5 l ++ drop 5 l)%list).
    { rewrite take_drop. by apply Helem. }
    apply elem_of_app in Hin as [Hin|Hin].
    { exfalso. apply Hout. apply (list_elem_of_fmap_2 fst) in Hin. done. }
    apply (Sorted_StronglySorted DashboardViewSet.count_desc) in Hsorted.
    rewrite <- (take_drop 5 l) in Hsorted.
    exact (StronglySorted_app_1_elem_of _ _ _ _ _ Hsorted He Hin).
  - intros rows' Hrows. exists (sort_desc (group_count rows')). split; [|done].
    split; [|apply sort_desc_Sorted].
    rewrite sort_desc_perm, group_count_perm. by apply annotate_count_perm.
  - intros Hflu.
    rewrite (annotate_count_perm _ _ Hflu) in Hperm.
    change (DashboardViewSet.annotate_count ["flu"; "flu"; "cold"])
      with [("flu", 2%nat); ("cold", 1%nat)] in Hperm.
    symmetry in Hperm. apply Permutation_length_2_inv in Hperm as [->| ->]; [done|].
    exfalso. apply Sorted_inv in Hsorted as [_ Hhd]. apply HdRel_inv in Hhd.
    unfold DashboardViewSet.count_desc in Hhd. simpl in Hhd. lia.
Qed.

Lemma clinic_common_diagnoses :
  DashboardViewSet.common_diagnoses example.clinic [("flu", 2%nat); ("cold", 1%nat)].
Proof.
  exists [("flu", 2%nat); ("cold", 1%nat)]. split; [|done]. split.
  - change (DashboardViewSet.annotate_count (DashboardViewSet.diagnoses example.clinic))
      with [("cold", 1%nat); ("flu", 2%nat)].
    apply perm_swap.
  - repeat constructor.
Defined.

Lemma common_diagnoses_top5_witness :
  Sorted DashboardViewSet.count_desc [("flu", 2%nat); ("cold", 1%nat)]
  ∧ DashboardViewSet.common_diagnoses example.clinic
      (top5_diagnoses ["flu"; "flu"; "cold"]).
Proof.
  destruct (common_diagnoses_top5 example.clinic [("flu", 2%nat); ("cold", 1%nat)]
              clinic_common_diagnoses) as (_ & _ & Hsorted & _ & _ & Hspec & _).
  split; [exact Hsorted|]. apply Hspec.
  change (DashboardViewSet.diagnoses example.clinic) with ["cold"; "flu"; "flu"].
  exact (Permutation_sym (Permutation_cons_append ["flu"; "flu"] "cold")).
Defined.

(** C7, as the specification has it, fails: with one record each for two
    diagnoses the query admits both orders, so its answer is not the
    first-seen order, whichever of the two records is seen first. *)
Lemma tie_order_is_not_first_seen :
  DashboardViewSet.common_diagnoses example.ties [("gout", 1%nat); ("acne", 1%nat)]
  ∧ DashboardViewSet.common_diagnoses example.ties [("acne", 1%nat); ("gout", 1%nat)]
  ∧ ¬ (∀ res, DashboardViewSet.common_diagnoses example.ties res →
              res = top5_diagnoses ["gout"; "acne"])
  ∧ ¬ (∀ res, DashboardViewSet.common_diagnoses example.ties res →
              res = top5_diagnoses ["acne"; "gout"]).
Proof.
  assert (H1 : DashboardViewSet.common_diagnoses example.ties
                 [("gout", 1%nat); ("acne", 1%nat)]).
  { exists [("gout", 1%nat); ("acne", 1%nat)]. split; [|done]. split.
    - change (DashboardViewSet.annotate_count (DashboardViewSet.diagnoses example.ties))
        with [("acne", 1%nat); ("gout", 1%nat)].
      apply perm_swap.
    - repeat constructor. }
  assert (H2 : DashboardViewSet.common_diagnoses example.ties
                 [("acne", 1%nat); ("gout", 1%nat)]).
  { exists [("acne", 1%nat); ("gout", 1%nat)]. split; [|done]. split.
    - change (DashboardViewSet.annotate_count (DashboardViewSet.diagnoses example.ties))
        with [("acne", 1%nat); ("gout", 1%nat)].
      done.
    - repeat constructor. }
  split_and!; [done|done|..].
  - intros H. specialize (H _ H2). vm_compute in H. discriminate.
  - intros H. specialize (H _ H1). vm_compute in H. discriminate.
Qed.

(** ** Who a created appointment belongs to *)

(** A successful create by a patient adds one row under a new key; the row's
    patient is what the model constructor makes of the requester passed as
    [patient=...] and of the [patient_id] of the request body.  A successful
    create by anyone else stores the [patient_id] of the body. *)
Lemma create_stores_patient init_fk (u : Z * User) attrs now s s' :
  AppointmentViewSet.create init_fk u attrs now s = (HTTP_201_CREATED, s') →
  ∃ pk a,
    appointments s !! pk = None
    ∧ appointments s' = <[pk := a]> (appointments s)
    ∧ doctor a = doctor_id attrs
    ∧ date_time a = attrs_date_time attrs
    ∧ patient a = if is_patient u then init_fk u.1 (patient_id attrs)
                  else patient_id attrs.
Proof.
  unfold AppointmentViewSet.create.
  destruct (validate s now attrs) as [attrs'|msg] eqn:Hv; [|done].
  apply validate_Valid in Hv as ->.
  destruct (AppointmentViewSet.perform_create _ _ _ _ _) as [s0|] eqn:Hc; [|done].
  intros [= ->].
  unfold AppointmentViewSet.perform_create, AppointmentViewSet.serializer_save in Hc.
  exists (next_pk (appointments s)).
  assert (Hfresh : appointments s !! next_pk (appointments s) = None).
  { apply next_pk_unused. }
  destruct (is_patient u); apply save_Some in Hc as [_ ->];
    eexists; (split_and!; [exact Hfresh|reflexivity|reflexivity..]).
Qed.

(** * Further properties of the code *)

(** ** Confirming and completing *)

Lemma in_scope_of_doctor u s pk a :
  appointments s !! pk = Some a → role u.2 = Doctor → doctor a = u.1 →
  get_object (AppointmentViewSet.get_queryset u s) pk = Some a.
Proof.
  intros Ha Hr Hd.
  unfold get_object, AppointmentViewSet.get_queryset, is_admin, is_doctor.
  rewrite Hr. simpl. by apply map_lookup_filter_Some.
Qed.

Lemma run_succeeds_iff act u pk now s a :
  appointments s !! pk = Some a →
  unique_together (appointments s) →
  (permitted act u a → get_object (AppointmentViewSet.get_queryset u s) pk = Some a) →
  (run act u pk now s).1 = HTTP_200_OK ↔ permitted act u a ∧ guard act now a.
Proof.
  intros Ha Huniq Hscope.
  pose proof (run_outcome act u pk now s) as Hout.
  destruct (run act u pk now s) as [r s']. simpl. split.
  - intros Hr.
    destruct (outcome_200 _ _ _ _ _ _ _ Hout Hr) as (a' & Hget & ? & ? & _).
    apply scope_lookup in Hget. assert (a' = a) as -> by congruence. done.
  - intros [Hperm Hg]. specialize (Hscope Hperm).
    pose proof (save_same_slot now pk a (set_status (target act) a) s Huniq Ha
                  eq_refl eq_refl) as Hsave.
    inversion Hout as [ H1 | a0 msg H1 H2 | a0 msg H1 H2 H3 | a0 H1 H2 H3 H4
                      | a0 s0 H1 H2 H3 H4 ]; subst.
    + congruence.
    + assert (a0 = a) as -> by congruence. contradiction.
    + assert (a0 = a) as -> by congruence. contradiction.
    + assert (a0 = a) as -> by congruence. congruence.
    + done.
Qed.

Lemma run_200_status act u pk now s :
  (run act u pk now s).1 = HTTP_200_OK →
  status <$> appointments (run act u pk now s).2 !! pk = Some (target act).
Proof.
  intros Hr. pose proof (run_outcome act u pk now s) as Hout.
  destruct (run act u pk now s) as [r s']. simpl in *.
  destruct (outcome_200 _ _ _ _ _ _ _ Hout Hr) as (a' & _ & _ & _ & ->).
  simpl. by rewrite lookup_insert_eq.
Qed.

Lemma run_not_200_unchanged act u pk now s :
  (run act u pk now s).1 ≠ HTTP_200_OK → (run act u pk now s).2 = s.
Proof.
  intros Hr. pose proof (run_outcome act u pk now s) as Hout.
  destruct (run act u pk now s) as [r s']. eauto using outcome_not_done.
Qed.

(** X1.  On a table that satisfies [unique_together], [confirm] answers 200
    exactly when the requester has role doctor, is the appointment's doctor
    and the status is pending; an admin or the patient can never confirm.
    A success writes the status confirmed, a failure leaves the database
    unchanged. *)
Theorem confirm_succeeds_iff (u : Z * User) (pk now : Z) (s : DB)
    (a : Appointment) :
  appointments s !! pk = Some a →
  unique_together (appointments s) →
  ((AppointmentViewSet.confirm u pk now s).1 = HTTP_200_OK ↔
     role u.2 = Doctor ∧ doctor a = u.1 ∧ status a = Pending)
  ∧ ((AppointmentViewSet.confirm u pk now s).1 = HTTP_200_OK →
     status <$> appointments (AppointmentViewSet.confirm u pk now s).2 !! pk
     = Some Confirmed)
  ∧ ((AppointmentViewSet.confirm u pk now s).1 ≠ HTTP_200_OK →
     (AppointmentViewSet.confirm u pk now s).2 = s).
Proof.
  intros Ha Huniq. split_and!.
  - rewrite (run_succeeds_iff Confirm u pk now s a Ha Huniq); simpl; [tauto|].
    intros [Hr Hd]. by apply in_scope_of_doctor.
  - apply (run_200_status Confirm).
  - apply (run_not_200_unchanged Confirm).
Qed.

Lemma confirm_succeeds_iff_witness :
  (AppointmentViewSet.confirm (2, example.dr_grey) 1 100 example.clinic).1
  = HTTP_200_OK
  ∧ (AppointmentViewSet.confirm (5, example.registered_admin) 1 100 example.clinic).2
    = example.clinic.
Proof.
  split.
  - apply (confirm_succeeds_iff (2, example.dr_grey) 1 100 example.clinic
             (example.appointment 1 2 1000 Pending)).
    + reflexivity.
    + refine (bool_decide_unpack _ _). vm_compute. exact I.
    + simpl. split_and!; reflexivity.
  - apply (confirm_succeeds_iff (5, example.registered_admin) 1 100 example.clinic
             (example.appointment 1 2 1000 Pending)).
    + reflexivity.
    + refine (bool_decide_unpack _ _). vm_compute. exact I.
    + vm_compute. discriminate.
Defined.

(** X2.  On a table that satisfies [unique_together], [complete] answers
    200 exactly when the requester has role doctor, is the appointment's
    doctor and the status is confirmed, whatever the clock reads: an
    appointment can be completed before its [date_time].  A success writes
    the status completed, a failure leaves the database unchanged. *)
Theorem complete_succeeds_iff (u : Z * User) (pk now : Z) (s : DB)
    (a : Appointment) :
  appointments s !! pk = Some a →
  unique_together (appointments s) →
  ((AppointmentViewSet.complete u pk now s).1 = HTTP_200_OK ↔
     role u.2 = Doctor ∧ doctor a = u.1 ∧ status a = Confirmed)
  ∧ ((AppointmentViewSet.complete u pk now s).1 = HTTP_200_OK →
     status <$> appointments (AppointmentViewSet.complete u pk now s).2 !! pk
     = Some Completed)
  ∧ ((AppointmentViewSet.complete u pk now s).1 ≠ HTTP_200_OK →
     (AppointmentViewSet.complete u pk now s).2 = s).
Proof.
  intros Ha Huniq. split_and!.
  - rewrite (run_succeeds_iff Complete u pk now s a Ha Huniq); simpl; [tauto|].
    intros [Hr Hd]. by apply in_scope_of_doctor.
  - apply (run_200_status Complete).
  - apply (run_not_200_unchanged Complete).
Qed.

Lemma complete_succeeds_iff_witness :
  (AppointmentViewSet.complete (2, example.dr_grey) 2 100 example.clinic).1
  = HTTP_200_OK
  ∧ (AppointmentViewSet.complete (2, example.dr_grey) 1 100 example.clinic).2
    = example.clinic.
Proof.
  split.
  - apply (complete_succeeds_iff (2, example.dr_grey) 2 100 example.clinic
             (example.appointment 3 2 2000 Confirmed)).
    + reflexivity.
    + refine (bool_decide_unpack _ _). vm_compute. exact I.
    + simpl. split_and!; reflexivity.
  - apply (complete_succeeds_iff (2, example.dr_grey) 1 100 example.clinic
             (example.appointment 1 2 1000 Pending)).
    + reflexivity.
    + refine (bool_decide_unpack _ _). vm_compute. exact I.
    + vm_compute. discriminate.
Defined.

(** X3.  The whole life of an appointment: on a table that satisfies
    [unique_together], the assigned doctor's [confirm] of a pending
    appointment followed by the same doctor's [complete], at any two times,
    both answer 200 and leave the status completed; after that no
    [confirm], [complete] or [cancel] by anyone succeeds on it. *)
Theorem confirm_then_complete (u : Z * User) (pk now now' : Z) (s : DB)
    (a : Appointment) :
  appointments s !! pk = Some a →
  unique_together (appointments s) →
  role u.2 = Doctor → doctor a = u.1 → status a = Pending →
  (AppointmentViewSet.confirm u pk now s).1 = HTTP_200_OK
  ∧ (AppointmentViewSet.complete u pk now'
       (AppointmentViewSet.confirm u pk now s).2).1 = HTTP_200_OK
  ∧ status <$> appointments
      (AppointmentViewSet.complete u pk now'
         (AppointmentViewSet.confirm u pk now s).2).2 !! pk = Some Completed
  ∧ ∀ act u' t,
      (run act u' pk t
         (AppointmentViewSet.complete u pk now'
            (AppointmentViewSet.confirm u pk now s).2).2).1 ≠ HTTP_200_OK.
Proof.
  intros Ha Huniq Hr Hd Hst.
  assert (H1 : (run Confirm u pk now s).1 = HTTP_200_OK).
  { apply (run_succeeds_iff Confirm u pk now s a Ha Huniq); simpl; [|done].
    intros _. by apply in_scope_of_doctor. }
  pose proof (run_unique_together Confirm u pk now s Huniq) as Huniq1.
  pose proof (run_outcome Confirm u pk now s) as Hout1.
  simpl in H1, Huniq1, Hout1.
  destruct (AppointmentViewSet.confirm u pk now s) as [r1 s1] eqn:E1. simpl in *.
  destruct (outcome_200 _ _ _ _ _ _ _ Hout1 H1) as (a' & Hget & _ & _ & Hs1).
  apply scope_lookup in Hget. assert (a' = a) as -> by congruence.
  set (a1 := set_updated_at now (set_status Confirmed a)) in *.
  assert (Ha1 : appointments s1 !! pk = Some a1).
  { rewrite Hs1. simpl. apply lookup_insert_eq. }
  assert (H2 : (run Complete u pk now' s1).1 = HTTP_200_OK).
  { apply (run_succeeds_iff Complete u pk now' s1 a1 Ha1 Huniq1); simpl; [|done].
    intros _. by apply in_scope_of_doctor. }
  pose proof (run_200_status Complete u pk now' s1 H2) as Hst2.
  simpl in H2, Hst2. split_and!; [done..|].
  intros act u' t Hr3.
  pose proof (run_outcome act u' pk t (AppointmentViewSet.complete u pk now' s1).2)
    as Hout3.
  destruct (run act u' pk t _) as [r3 s3]. simpl in Hr3.
  destruct (outcome_200 _ _ _ _ _ _ _ Hout3 Hr3) as (a3 & Hget3 & _ & Hg & _).
  apply scope_lookup in Hget3. rewrite Hget3 in Hst2. simpl in Hst2.
  injection Hst2 as Hst2. apply guard_source in Hg.
  destruct act; simpl in Hg; rewrite Hst2 in Hg; intuition discriminate.
Qed.

Lemma confirm_then_complete_witness :
  status <$> appointments
    (AppointmentViewSet.complete (2, example.dr_grey) 1 300
       (AppointmentViewSet.confirm (2, example.dr_grey) 1 100 example.clinic).2).2
    !! 1 = Some Completed.
Proof.
  apply (confirm_then_complete (2, example.dr_grey) 1 100 300 example.clinic
           (example.appointment 1 2 1000 Pending)); try reflexivity.
  refine (bool_decide_unpack _ _). vm_compute. exact I.
Defined.

(** ** Creating an appointment *)

Lemma fresh_key_unused {A} (m : gmap Z A) : m !! next_pk m = None.
Proof. apply next_pk_unused. Qed.

Lemma validate_Valid_inv s now attrs attrs' :
  validate s now attrs = Valid attrs' →
  is_Some (get_user s (patient_id attrs) Patient)
  ∧ is_Some (get_user s (doctor_id attrs) Doctor)
  ∧ now < attrs_date_time attrs.
Proof.
  unfold validate.
  destruct (get_user s (patient_id attrs) Patient); [|done].
  destruct (get_user s (doctor_id attrs) Doctor); [|done].
  case_bool_decide; [done|]. intros _. split_and!; eauto. lia.
Qed.

Lemma perform_create_Some init_fk u attrs now s :
  (∀ j b, appointments s !! j = Some b →
          ¬ (doctor b = doctor_id attrs ∧ date_time b = attrs_date_time attrs)) →
  is_Some (AppointmentViewSet.perform_create init_fk u attrs now s).
Proof.
  intros Hfree.
  unfold AppointmentViewSet.perform_create, AppointmentViewSet.serializer_save.
  destruct (is_patient u);
    (eexists; apply save_Some; split; [|reflexivity]; apply clash_empty;
     intros j b Hj _ Hd Ht; simpl in *; by apply (Hfree j b Hj)).
Qed.

(** X4.  [create] answers 201 exactly when the patient id names a user with
    role patient, the doctor id names a user with role doctor, [date_time]
    is after the clock, and no appointment of any status, cancelled and
    completed ones included, already holds that doctor and time.  Any other
    answer leaves the database unchanged. *)
Theorem create_succeeds_iff (init_fk : Z → Z → Z) (u : Z * User)
    (attrs : AppointmentAttrs) (now : Z) (s : DB) :
  ((AppointmentViewSet.create init_fk u attrs now s).1 = HTTP_201_CREATED ↔
     is_Some (get_user s (patient_id attrs) Patient)
     ∧ is_Some (get_user s (doctor_id attrs) Doctor)
     ∧ now < attrs_date_time attrs
     ∧ ∀ j b, appointments s !! j = Some b →
              ¬ (doctor b = doctor_id attrs ∧ date_time b = attrs_date_time attrs))
  ∧ ((AppointmentViewSet.create init_fk u attrs now s).1 ≠ HTTP_201_CREATED →
     (AppointmentViewSet.create init_fk u attrs now s).2 = s).
Proof.
  split; [|apply create_unchanged_or_created]. split.
  - intros Hr. unfold AppointmentViewSet.create in Hr.
    destruct (validate s now attrs) as [attrs'|msg] eqn:Hv; [|done].
    destruct (validate_Valid_inv _ _ _ _ Hv) as (Hp & Hd & Hnow).
    apply validate_Valid in Hv as ->.
    split_and!; [done..|]. intros j b Hj [Hdb Htb].
    by rewrite (perform_create_clash init_fk u attrs now s j b Hj Hdb Htb) in Hr.
  - intros ([p Hp] & [d Hd] & Hnow & Hfree).
    unfold AppointmentViewSet.create.
    rewrite (validate_free s now attrs p d Hp Hd Hnow).
    + by destruct (perform_create_Some init_fk u attrs now s Hfree) as [s' ->].
    + intros j b Hj Hdb Htb _. by apply (Hfree j b Hj).
Qed.

Lemma create_succeeds_iff_witness :
  (AppointmentViewSet.create (λ p _, p) (1, example.alice)
     (example.attrs 1 2 1500 None) 100 example.clinic).1 = HTTP_201_CREATED
  ∧ (AppointmentViewSet.create (λ p _, p) (3, example.bob)
       (example.attrs 3 4 3000 None) 100 example.clinic).2 = example.clinic.
Proof.
  pose proof (create_succeeds_iff (λ p _, p) (3, example.bob)
                (example.attrs 3 4 3000 None) 100 example.clinic) as [_ H2].
  split; [reflexivity|]. apply H2. vm_compute. discriminate.
Defined.

(** X5.  A cancelled appointment keeps its slot.  On a table that satisfies
    [unique_together], after a successful [cancel] a [create] for the same
    doctor and time, with a valid patient and doctor and a time still
    ahead, passes validation and is stopped by the table: it answers with
    the integrity error and writes nothing. *)
Theorem cancelled_slot_cannot_be_rebooked (init_fk : Z → Z → Z)
    (u u' : Z * User) (pk now now' : Z) (s : DB) (a : Appointment)
    (attrs : AppointmentAttrs) :
  appointments s !! pk = Some a →
  unique_together (appointments s) →
  (AppointmentViewSet.cancel u pk now s).1 = HTTP_200_OK →
  doctor_id attrs = doctor a → attrs_date_time attrs = date_time a →
  is_Some (get_user s (patient_id attrs) Patient) →
  is_Some (get_user s (doctor_id attrs) Doctor) →
  now' < attrs_date_time attrs →
  validate (AppointmentViewSet.cancel u pk now s).2 now' attrs = Valid attrs
  ∧ AppointmentViewSet.create init_fk u' attrs now'
      (AppointmentViewSet.cancel u pk now s).2
    = (IntegrityError, (AppointmentViewSet.cancel u pk now s).2).
Proof.
  intros Ha Huniq Hr Hd Ht [p Hp] [d Hdoc] Hnow.
  pose proof (proj1 (unique_together_alt _) Huniq) as Hu.
  pose proof (run_outcome Cancel u pk now s) as Hout. simpl in Hout.
  destruct (AppointmentViewSet.cancel u pk now s) as [r s1]. simpl in *.
  destruct (outcome_200 _ _ _ _ _ _ _ Hout Hr) as (a' & Hget & _ & _ & ->).
  apply scope_lookup in Hget. assert (a' = a) as -> by congruence.
  cbn [target].
  set (a1 := set_updated_at now (set_status Cancelled a)).
  set (s1 := set_appointments (<[pk:=a1]> (appointments s)) s).
  assert (Hv : validate s1 now' attrs = Valid attrs).
  { apply (validate_free s1 now' attrs p d); [done..|].
    intros j b Hj Hdb Htb Hin. simpl in Hj.
    apply lookup_insert_Some in Hj as [[<- <-]|[Hne Hj]].
    - simpl in Hin. rewrite !elem_of_cons, elem_of_nil in Hin.
      intuition discriminate.
    - apply Hne. apply (Hu pk j a b); congruence. }
  split; [done|]. unfold AppointmentViewSet.create. rewrite Hv.
  rewrite (perform_create_clash init_fk u' attrs now' s1 pk a1); [done| |done..].
  apply lookup_insert_eq.
Qed.

Lemma cancelled_slot_cannot_be_rebooked_witness :
  AppointmentViewSet.create (λ p _, p) (3, example.bob)
    (example.attrs 3 2 1000 None) 200
    (AppointmentViewSet.cancel (1, example.alice) 1 100 example.clinic).2
  = (IntegrityError,
     (AppointmentViewSet.cancel (1, example.alice) 1 100 example.clinic).2).
Proof.
  apply (cancelled_slot_cannot_be_rebooked (λ p _, p) (1, example.alice)
           (3, example.bob) 1 100 200 example.clinic
           (example.appointment 1 2 1000 Pending) (example.attrs 3 2 1000 None));
    try reflexivity.
  - refine (bool_decide_unpack _ _). vm_compute. exact I.
  - exists (3, example.bob). reflexivity.
  - exists (2, example.dr_grey). reflexivity.
Defined.

(** X6.  What is created can be read back: after a [create] answered 201,
    the user named as doctor finds the new appointment in the appointment
    listing, and, unless the request set a status other than pending or
    confirmed, in [upcoming] at the same clock. *)
Theorem created_appointment_is_listed (init_fk : Z → Z → Z) (u : Z * User)
    (attrs : AppointmentAttrs) (now : Z) (s : DB) (d : User) :
  (AppointmentViewSet.create init_fk u attrs now s).1 = HTTP_201_CREATED →
  role d = Doctor →
  ∃ pk a,
    appointments s !! pk = None
    ∧ AppointmentViewSet.list_view (doctor_id attrs, d)
        (AppointmentViewSet.create init_fk u attrs now s).2
      = Rows (AppointmentViewSet.get_queryset (doctor_id attrs, d)
                (AppointmentViewSet.create init_fk u attrs now s).2)
    ∧ AppointmentViewSet.get_queryset (doctor_id attrs, d)
        (AppointmentViewSet.create init_fk u attrs now s).2 !! pk = Some a
    ∧ date_time a = attrs_date_time attrs
    ∧ status a = default Pending (attrs_status attrs)
    ∧ (default Pending (attrs_status attrs) ∈ [Pending; Confirmed] →
       ∃ qs, AppointmentViewSet.upcoming (doctor_id attrs, d) now
               (AppointmentViewSet.create init_fk u attrs now s).2 = Rows qs
             ∧ qs !! pk = Some a).
Proof.
  intros Hr Hrole. unfold AppointmentViewSet.create in *.
  destruct (validate s now attrs) as [attrs'|msg] eqn:Hv; [|done].
  destruct (validate_Valid_inv _ _ _ _ Hv) as (_ & _ & Hnow).
  apply validate_Valid in Hv as ->.
  destruct (AppointmentViewSet.perform_create _ _ _ _ _) as [s'|] eqn:Hc; [|done].
  simpl. clear Hr.
  unfold AppointmentViewSet.perform_create, AppointmentViewSet.serializer_save in Hc.
  exists (next_pk (appointments s)).
  assert (Hq : ∀ a, appointments s' !! next_pk (appointments s) = Some a →
                    doctor a = doctor_id attrs →
                    AppointmentViewSet.get_queryset (doctor_id attrs, d) s'
                      !! next_pk (appointments s) = Some a).
  { intros a Ha Hd. unfold AppointmentViewSet.get_queryset, is_admin, is_doctor.
    simpl. rewrite Hrole. simpl. by apply map_lookup_filter_Some. }
  destruct (is_patient u); apply save_Some in Hc as [_ ->];
    (eexists; split_and!;
     [apply fresh_key_unused | reflexivity
     | apply Hq; [apply lookup_insert_eq|reflexivity]
     | reflexivity | reflexivity
     | intros Hst; eexists; split; [reflexivity|];
       apply map_lookup_filter_Some; split;
       [apply Hq; [apply lookup_insert_eq|reflexivity] | simpl; split; [lia|done]]]).
Qed.

Lemma created_appointment_is_listed_witness :
  ∃ pk a,
    appointments example.clinic !! pk = None
    ∧ AppointmentViewSet.get_queryset (2, example.dr_grey)
        (AppointmentViewSet.create (λ p _, p) (1, example.alice)
           (example.attrs 1 2 1500 None) 100 example.clinic).2 !! pk = Some a
    ∧ date_time a = 1500.
Proof.
  destruct (created_appointment_is_listed (λ p _, p) (1, example.alice)
              (example.attrs 1 2 1500 None) 100 example.clinic example.dr_grey
              eq_refl eq_refl) as (pk & a & H1 & _ & H2 & H3 & _).
  exists pk, a. split_and!; assumption.
Defined.

(** ** Updating and deleting an appointment *)

(** X7.  The double-booking check of [validate] does not set the edited
    appointment aside: a PUT on a pending or confirmed appointment that
    keeps its doctor and time is always answered 400 and writes nothing,
    and once its patient, doctor and time are accepted the error is the
    double-booking one. *)
Theorem update_in_place_conflicts_with_itself (u : Z * User) (pk now : Z)
    (attrs : AppointmentAttrs) (s : DB) (a : Appointment) :
  get_object (AppointmentViewSet.get_queryset u s) pk = Some a →
  status a ∈ [Pending; Confirmed] →
  doctor_id attrs = doctor a → attrs_date_time attrs = date_time a →
  (AppointmentViewSet.update u pk attrs now s).2 = s
  ∧ (∃ msg, (AppointmentViewSet.update u pk attrs now s).1 = HTTP_400_BAD_REQUEST msg)
  ∧ (is_Some (get_user s (patient_id attrs) Patient) →
     is_Some (get_user s (doctor_id attrs) Doctor) →
     now < attrs_date_time attrs →
     (AppointmentViewSet.update u pk attrs now s).1 = HTTP_400_BAD_REQUEST booked_msg).
Proof.
  intros Hget Hst Hd Ht. pose proof (scope_lookup _ _ _ _ Hget) as Ha.
  assert (Hv : ∃ msg, validate s now attrs = ValidationError msg
                ∧ (is_Some (get_user s (patient_id attrs) Patient) →
                   is_Some (get_user s (doctor_id attrs) Doctor) →
                   now < attrs_date_time attrs → msg = booked_msg)).
  { destruct (get_user s (patient_id attrs) Patient) as [p|] eqn:Hp.
    2:{ unfold validate. rewrite Hp. eexists. split; [done|].
        by intros [? ?]. }
    destruct (get_user s (doctor_id attrs) Doctor) as [d|] eqn:Hdoc.
    2:{ unfold validate. rewrite Hp, Hdoc. eexists. split; [done|].
        by intros _ [? ?]. }
    destruct (decide (now < attrs_date_time attrs)) as [Hnow|Hnow].
    - exists booked_msg. split; [|done].
      by apply (validate_booked s now attrs p d pk a).
    - unfold validate. rewrite Hp, Hdoc.
      rewrite bool_decide_eq_true_2 by lia. eexists. split; [done|]. intros; lia. }
  destruct Hv as (msg & Hv & Hmsg).
  unfold AppointmentViewSet.update. rewrite Hget, Hv. simpl.
  split_and!; [done|eauto|]. intros Hp Hdoc Hnow. by rewrite (Hmsg Hp Hdoc Hnow).
Qed.

Lemma update_in_place_conflicts_with_itself_witness :
  (AppointmentViewSet.update (1, example.alice) 1
     (example.attrs 1 2 1000 None) 100 example.clinic).1
  = HTTP_400_BAD_REQUEST booked_msg.
Proof.
  apply (update_in_place_conflicts_with_itself (1, example.alice) 1 100
           (example.attrs 1 2 1000 None) example.clinic
           (example.appointment 1 2 1000 Pending)); try reflexivity.
  - simpl. apply list_elem_of_here.
  - exists (1, example.alice). reflexivity.
  - exists (2, example.dr_grey). reflexivity.
Defined.

(** X8.  A PUT answered 200 rewrites the one row it names: the row takes the
    patient, doctor and time of the body, a time that is after the clock,
    keeps its [created_at] and keeps its status, reason and notes where the
    body is silent; every other appointment, and the medical records, also
    those of the edited appointment, stay as they were.  Any other answer
    leaves the database unchanged. *)
Theorem update_rewrites_one_row (u : Z * User) (pk now : Z)
    (attrs : AppointmentAttrs) (s : DB) :
  ((AppointmentViewSet.update u pk attrs now s).1 = HTTP_200_OK →
     ∃ a a',
       get_object (AppointmentViewSet.get_queryset u s) pk = Some a
       ∧ appointments (AppointmentViewSet.update u pk attrs now s).2
         = <[pk := a']> (appointments s)
       ∧ patient a' = patient_id attrs ∧ doctor a' = doctor_id attrs
       ∧ date_time a' = attrs_date_time attrs ∧ now < date_time a'
       ∧ status a' = default (status a) (attrs_status attrs)
       ∧ reason a' = default (reason a) (attrs_reason attrs)
       ∧ notes a' = default (notes a) (attrs_notes attrs)
       ∧ created_at a' = created_at a ∧ updated_at a' = now
       ∧ medical_records (AppointmentViewSet.update u pk attrs now s).2
         = medical_records s)
  ∧ ((AppointmentViewSet.update u pk attrs now s).1 ≠ HTTP_200_OK →
     (AppointmentViewSet.update u pk attrs now s).2 = s).
Proof.
  unfold AppointmentViewSet.update.
  destruct (get_object _ pk) as [a|] eqn:Hget; [|done].
  destruct (validate s now attrs) as [attrs'|msg] eqn:Hv; [|done].
  destruct (validate_Valid_inv _ _ _ _ Hv) as (_ & _ & Hnow).
  apply validate_Valid in Hv as ->.
  destruct (save _ _ _ _) as [s'|] eqn:Hsave; simpl; [|done].
  apply save_Some in Hsave as [_ ->]. split; [|done]. intros _.
  eexists _, _. split_and!; try reflexivity. simpl. done.
Qed.

Lemma update_rewrites_one_row_witness :
  (AppointmentViewSet.update (3, example.bob) 4
     (example.attrs 3 4 3500 None) 100 example.clinic).1 = HTTP_200_OK
  ∧ medical_records
      (AppointmentViewSet.update (3, example.bob) 4
         (example.attrs 3 4 3500 None) 100 example.clinic).2
    = medical_records example.clinic.
Proof.
  split; [reflexivity|].
  destruct (update_rewrites_one_row (3, example.bob) 4 100
              (example.attrs 3 4 3500 None) example.clinic) as [H _].
  destruct (H eq_refl) as (a & a' & H'). apply H'.
Defined.

(** X9.  DELETE answers 204 exactly when the appointment is in the
    requester's queryset, and 404 otherwise, writing nothing.  A 204 removes
    that appointment and, by cascade, exactly the medical records that point
    at it; every other appointment and record stays. *)
Theorem destroy_cascades (u : Z * User) (pk : Z) (s : DB) :
  ((AppointmentViewSet.destroy u pk s).1 = HTTP_204_NO_CONTENT ↔
     is_Some (get_object (AppointmentViewSet.get_queryset u s) pk))
  ∧ ((AppointmentViewSet.destroy u pk s).1 = HTTP_204_NO_CONTENT →
     appointments (AppointmentViewSet.destroy u pk s).2 = delete pk (appointments s)
     ∧ ∀ i r, medical_records (AppointmentViewSet.destroy u pk s).2 !! i = Some r
              ↔ medical_records s !! i = Some r ∧ mr_appointment r ≠ pk)
  ∧ ((AppointmentViewSet.destroy u pk s).1 ≠ HTTP_204_NO_CONTENT →
     AppointmentViewSet.destroy u pk s = (HTTP_404_NOT_FOUND, s)).
Proof.
  unfold AppointmentViewSet.destroy.
  destruct (get_object _ pk) as [a|] eqn:Hget; simpl.
  - split_and!; [split; eauto| |done]. intros _. split; [done|].
    intros i r. by rewrite map_lookup_filter_Some.
  - split_and!; [split; [done|by intros [? ?]]|done|done].
Qed.

(** X10.  Referential integrity: in every database the API can reach, each
    medical record points at an appointment that exists. *)
Theorem reachable_records_have_appointments (init_fk : Z → Z → Z) (s : DB) :
  reachable init_fk s → profiles.records_have_appointments s.
Proof.
  unfold profiles.records_have_appointments.
  induction 1 as [us pp|s u req now _ IH]; simpl.
  { intros i r Hi. by rewrite lookup_empty in Hi. }
  assert (Hkeep : ∀ s', medical_records s' = medical_records s →
                        (∀ j, is_Some (appointments s !! j) →
                              is_Some (appointments s' !! j)) →
                        ∀ i r, medical_records s' !! i = Some r →
                               is_Some (appointments s' !! mr_appointment r)).
  { intros s' Hm Hsub i r Hi. rewrite Hm in Hi. eauto. }
  assert (Hins : ∀ k (a : Appointment) j,
             is_Some (appointments s !! j) →
             is_Some (<[k := a]> (appointments s) !! j)).
  { intros k a j Hj. rewrite lookup_insert_is_Some. destruct (decide (k = j)); auto. }
  destruct req as [pk row|pk|attrs|pk attrs|pk|pk|pk|pk|attrs|pk ch|pk|rows]; simpl.
  - exact IH.
  - intros i r [Hi (_ & _ & Hdom)]%map_lookup_filter_Some. simpl in Hdom.
    by apply elem_of_dom in Hdom.
  - unfold AppointmentViewSet.create.
    destruct (validate s now attrs) as [attrs'|msg]; [|exact IH].
    destruct (AppointmentViewSet.perform_create _ _ _ _ _) as [s'|] eqn:Hc; [|exact IH].
    unfold AppointmentViewSet.perform_create, AppointmentViewSet.serializer_save in Hc.
    destruct (is_patient u); apply save_Some in Hc as [_ ->];
      (apply (Hkeep (set_appointments _ s)); [reflexivity|apply Hins]).
  - unfold AppointmentViewSet.update.
    destruct (get_object _ pk) as [a|]; [|exact IH].
    destruct (validate s now attrs) as [attrs'|msg]; [|exact IH].
    destruct (save _ _ _ _) as [s'|] eqn:Hsave; [|exact IH].
    apply save_Some in Hsave as [_ ->].
    apply (Hkeep (set_appointments _ s)); [reflexivity|apply Hins].
  - unfold AppointmentViewSet.destroy.
    destruct (get_object _ pk) as [a|]; [|exact IH]. simpl.
    intros i r [Hi Hne]%map_lookup_filter_Some. simpl in Hne.
    rewrite lookup_delete_ne by done. eauto.
  - pose proof (run_outcome Confirm u pk now s) as Hout. simpl in Hout.
    destruct (AppointmentViewSet.confirm u pk now s) as [r0 s'].
    inversion Hout as [ | | | | a0 s0 H1 H2 H3 H4 ]; subst; try exact IH.
    apply save_Some in H4 as [_ ->].
    apply (Hkeep (set_appointments _ s)); [reflexivity|apply Hins].
  - pose proof (run_outcome Complete u pk now s) as Hout. simpl in Hout.
    destruct (AppointmentViewSet.complete u pk now s) as [r0 s'].
    inversion Hout as [ | | | | a0 s0 H1 H2 H3 H4 ]; subst; try exact IH.
    apply save_Some in H4 as [_ ->].
    apply (Hkeep (set_appointments _ s)); [reflexivity|apply Hins].
  - pose proof (run_outcome Cancel u pk now s) as Hout. simpl in Hout.
    destruct (AppointmentViewSet.cancel u pk now s) as [r0 s'].
    inversion Hout as [ | | | | a0 s0 H1 H2 H3 H4 ]; subst; try exact IH.
    apply save_Some in H4 as [_ ->].
    apply (Hkeep (set_appointments _ s)); [reflexivity|apply Hins].
  - unfold MedicalRecordViewSet.create.
    destruct (validate_medical_record s attrs) as [attrs'|msg] eqn:Hv; [|exact IH].
    assert (attrs' = attrs ∧ is_Some (appointments s !! appointment_id attrs))
      as [-> Happ].
    { unfold validate_medical_record in Hv.
      destruct (get_user s (mr_patient_id attrs) Patient); [|done].
      destruct (get_user s (mr_doctor_id attrs) Doctor); [|done].
      destruct (appointments s !! appointment_id attrs); [|done].
      destruct (_ || _); [done|]. injection Hv as <-. eauto. }
    unfold MedicalRecordViewSet.perform_create, MedicalRecordViewSet.serializer_save.
    simpl. intros i r Hi.
    destruct (is_doctor u); simpl in Hi;
      (apply lookup_insert_Some in Hi as [[_ <-]|[_ Hi]]; simpl; eauto).
  - unfold MedicalRecordWrites.update.
    destruct (get_object _ pk) as [instance|]; [|exact IH].
    destruct (validate_medical_record s _) as [attrs'|msg] eqn:Hv; [|exact IH].
    assert (Happ : is_Some (appointments s !! MedicalRecordWrites.ch_appointment_id ch)).
    { unfold validate_medical_record in Hv. simpl in Hv.
      destruct (get_user s _ Patient); [|done].
      destruct (get_user s _ Doctor); [|done].
      destruct (appointments s !! MedicalRecordWrites.ch_appointment_id ch); [eauto|done]. }
    simpl. intros i r Hi.
    apply lookup_insert_Some in Hi as [[_ <-]|[_ Hi]]; simpl; eauto.
  - unfold MedicalRecordWrites.destroy.
    destruct (get_object _ pk) as [instance|]; [|exact IH]. simpl.
    intros i r Hi. apply lookup_delete_Some in Hi as [_ Hi]. eauto.
  - exact IH.
Qed.

Lemma reachable_records_have_appointments_witness :
  profiles.records_have_appointments
    (dispatch (λ p _, p) (2, example.dr_grey)
       (MedicalRecordCreate (example.record_attrs 1 2 1)) 100
       (dispatch (λ p _, p) (1, example.alice)
          (AppointmentCreate (example.attrs 1 2 1000 None)) 50
          profiles.empty_clinic).2).2.
Proof.
  apply (reachable_records_have_appointments (λ p _, p)).
  apply reachable_request, reachable_request, reachable_initial.
Defined.

(** ** What a doctor sees *)

(** X11.  For a requester with role doctor the appointment queryset is
    exactly the appointments whose doctor is the requester, the
    medical-record queryset exactly the records whose doctor is the
    requester, and the profile queryset exactly the profiles of users who
    are the patient of some appointment with the requester, of whatever
    status, cancelled ones included. *)
Theorem doctor_querysets (u : Z * User) (s : DB) :
  role u.2 = Doctor →
  (∀ i a, AppointmentViewSet.get_queryset u s !! i = Some a ↔
          appointments s !! i = Some a ∧ doctor a = u.1)
  ∧ (∀ i r, MedicalRecordViewSet.get_queryset u s !! i = Some r ↔
            medical_records s !! i = Some r ∧ mr_doctor r = u.1)
  ∧ (∀ i p, PatientProfileViewSet.get_queryset u s !! i = Some p ↔
            patient_profiles s !! i = Some p
            ∧ ∃ j a, appointments s !! j = Some a
                     ∧ doctor a = u.1 ∧ patient a = pp_user p).
Proof.
  intros Hrole.
  unfold AppointmentViewSet.get_queryset, MedicalRecordViewSet.get_queryset,
    PatientProfileViewSet.get_queryset, is_admin, is_doctor.
  rewrite Hrole. simpl. split_and!.
  - intros i a. by rewrite map_lookup_filter_Some.
  - intros i r. by rewrite map_lookup_filter_Some.
  - intros i p. rewrite map_lookup_filter_Some. simpl.
    unfold PatientProfileViewSet.patient_ids. rewrite list_elem_of_fmap.
    split; intros [Hp H]; (split; [done|]).
    + destruct H as ([j a] & Hpa & Hin).
      apply elem_of_map_to_list, map_lookup_filter_Some in Hin as [Hj Hd].
      simpl in *. eauto.
    + destruct H as (j & a & Hj & Hd & Hpa). exists (j, a). split; [done|].
      apply elem_of_map_to_list, map_lookup_filter_Some. done.
Qed.

Lemma doctor_querysets_witness :
  PatientProfileViewSet.get_queryset (4, example.dr_house) example.clinic !! 2
  = Some (example.profile 3).
Proof.
  destruct (doctor_querysets (4, example.dr_house) example.clinic eq_refl)
    as (_ & _ & H).
  apply H. split; [reflexivity|].
  exists 4, (example.appointment 3 4 3000 Cancelled). split_and!; reflexivity.
Defined.

(** ** Upcoming appointments *)

(** X12.  [upcoming] lists exactly the appointments of the requester's
    queryset that [can_be_cancelled] reports as cancellable at the clock of
    the request. *)
Theorem upcoming_is_cancellable (u : Z * User) (now : Z) (s : DB) :
  ∃ qs, AppointmentViewSet.upcoming u now s = Rows qs
        ∧ ∀ i a, qs !! i = Some a ↔
                 AppointmentViewSet.get_queryset u s !! i = Some a
                 ∧ can_be_cancelled now a = true.
Proof.
  eexists. split; [reflexivity|]. intros i a.
  rewrite map_lookup_filter_Some. unfold can_be_cancelled, is_upcoming. simpl.
  rewrite andb_true_iff, !bool_decide_eq_true. tauto.
Qed.

(** ** Medical history *)

Lemma pretty_N_go_length (x : N) (acc : string) :
  (String.length acc ≤ String.length (pretty_N_go x acc))%nat.
Proof.
  revert acc. induction (N.lt_wf_0 x) as [x _ IH]. intros acc.
  destruct (decide (x = 0%N)) as [->|Hx]; [by rewrite pretty_N_go_0|].
  rewrite pretty_N_go_step by lia.
  etrans; [|apply IH; apply N.div_lt; lia]. simpl. lia.
Qed.

Lemma pretty_Z_nonempty (k : Z) : pretty k ≠ EmptyString.
Proof.
  assert (Hpos : ∀ q : positive, pretty q ≠ EmptyString).
  { intros q Hq. unfold pretty, pretty_positive, pretty, pretty_N in Hq.
    rewrite decide_False in Hq by done.
    rewrite pretty_N_go_step in Hq by lia.
    pose proof (pretty_N_go_length (N.pos q `div` 10)
                  (String (pretty_N_char (N.pos q `mod` 10)) EmptyString)) as Hlen.
    rewrite Hq in Hlen. simpl in Hlen. lia. }
  destruct k as [|q|q]; unfold pretty, pretty_Z; [done|apply Hpos|done].
Qed.

(** X13.  [patient_history] without a [patient_id], or with an empty one,
    is refused with 400 for every requester.  For a requester with role
    patient, the parameter that is the decimal text of the own key gives
    exactly the rows of the medical-record listing, and every other text,
    the own key written with a leading zero included, is refused with 403. *)
Theorem patient_history_of_patient (to_python : string → option Z)
    (u : Z * User) (s : DB) :
  to_python (pretty u.1) = Some u.1 →
  history_query.patient_history to_python u None s
  = Some (Refused (HTTP_400_BAD_REQUEST "patient_id is required"))
  ∧ history_query.patient_history to_python u (Some EmptyString) s
    = Some (Refused (HTTP_400_BAD_REQUEST "patient_id is required"))
  ∧ (role u.2 = Patient →
     history_query.patient_history to_python u (Some (pretty u.1)) s
     = Some (MedicalRecordViewSet.list_view u s)
     ∧ ∀ raw, raw ≠ EmptyString → raw ≠ pretty u.1 →
         history_query.patient_history to_python u (Some raw) s
         = Some (Refused
                   (HTTP_403_FORBIDDEN "You can only view your own medical history"))).
Proof.
  intros Hconv. split_and!; [reflexivity..|]. intros Hrole.
  unfold history_query.patient_history, MedicalRecordViewSet.list_view,
    MedicalRecordViewSet.get_queryset, is_patient, is_doctor, is_admin.
  rewrite Hrole. simpl. split.
  - pose proof (pretty_Z_nonempty u.1) as Hne.
    destruct (pretty u.1) as [|c rest] eqn:Hp; [done|].
    rewrite bool_decide_eq_false_2 by (intros H; by apply H).
    by rewrite Hconv.
  - intros raw Hne Hraw. destruct raw as [|c rest]; [done|].
    by rewrite bool_decide_eq_true_2 by congruence.
Qed.

Lemma patient_history_of_patient_witness :
  history_query.patient_history (history_query.reads 1) (1, example.alice)
    (Some "1") example.clinic
  = Some (MedicalRecordViewSet.list_view (1, example.alice) example.clinic)
  ∧ history_query.patient_history (history_query.reads 1) (1, example.alice)
      (Some "01") example.clinic
    = Some (Refused
              (HTTP_403_FORBIDDEN "You can only view your own medical history")).
Proof.
  destruct (patient_history_of_patient (history_query.reads 1) (1, example.alice)
              example.clinic eq_refl) as (_ & _ & H).
  destruct (H eq_refl) as [H1 H2]. split; [exact H1|].
  apply H2; discriminate.
Defined.

(** X14.  For a requester with role doctor, [patient_history] for a patient
    id returns exactly the records of that patient whose appointment is an
    appointment of that patient with the requester; the doctor stored on the
    record itself is not looked at.  For an admin it returns every record
    of that patient. *)
Theorem patient_history_of_staff (u : Z * User) (pid : Z) (s : DB) :
  (role u.2 = Doctor →
   ∃ qs, MedicalRecordViewSet.patient_history u (Some pid) s = Rows qs
         ∧ ∀ i r, qs !! i = Some r ↔
                  medical_records s !! i = Some r ∧ mr_patient r = pid
                  ∧ ∃ a, appointments s !! mr_appointment r = Some a
                         ∧ doctor a = u.1 ∧ patient a = pid)
  ∧ (role u.2 = Admin →
     ∃ qs, MedicalRecordViewSet.patient_history u (Some pid) s = Rows qs
           ∧ ∀ i r, qs !! i = Some r ↔
                    medical_records s !! i = Some r ∧ mr_patient r = pid).
Proof.
  unfold MedicalRecordViewSet.patient_history, is_patient, is_doctor.
  split; intros Hrole; rewrite Hrole; simpl; (eexists; split; [reflexivity|]);
    intros i r; rewrite map_lookup_filter_Some; simpl; [|done].
  rewrite elem_of_dom. unfold is_Some.
  setoid_rewrite map_lookup_filter_Some. simpl. naive_solver.
Qed.

Lemma patient_history_of_staff_witness :
  ∃ qs, MedicalRecordViewSet.patient_history (2, example.dr_grey) (Some 1)
          example.clinic = Rows qs
        ∧ ∀ i r, qs !! i = Some r ↔
                 medical_records example.clinic !! i = Some r ∧ mr_patient r = 1
                 ∧ ∃ a, appointments example.clinic !! mr_appointment r = Some a
                        ∧ doctor a = 2 ∧ patient a = 1.
Proof.
  apply (patient_history_of_staff (2, example.dr_grey) 1 example.clinic). reflexivity.
Defined.

(** ** Creating a medical record *)

(** X15.  When the medical-record [create] answers 201, the appointment it
    names exists, one record is added under a new key, the record carries
    the appointment's patient and, unless the requester is a doctor, the
    appointment's doctor; the older records, the appointments and the users
    are untouched.  Neither the requester's role nor the appointment's
    status is asked for.  Any other answer leaves the database unchanged. *)
Theorem record_create_effect (init_fk : Z → Z → Z) (u : Z * User)
    (attrs : MedicalRecordAttrs) (now : Z) (s : DB) :
  ((MedicalRecordViewSet.create init_fk u attrs now s).1 = HTTP_201_CREATED →
     ∃ k r a,
       medical_records s !! k = None
       ∧ medical_records (MedicalRecordViewSet.create init_fk u attrs now s).2
         = <[k := r]> (medical_records s)
       ∧ appointments s !! appointment_id attrs = Some a
       ∧ mr_appointment r = appointment_id attrs
       ∧ mr_patient r = patient a
       ∧ diagnosis r = attrs_diagnosis attrs
       ∧ (is_doctor u = false → mr_doctor r = doctor a)
       ∧ appointments (MedicalRecordViewSet.create init_fk u attrs now s).2
         = appointments s
       ∧ users (MedicalRecordViewSet.create init_fk u attrs now s).2 = users s)
  ∧ ((MedicalRecordViewSet.create init_fk u attrs now s).1 ≠ HTTP_201_CREATED →
     (MedicalRecordViewSet.create init_fk u attrs now s).2 = s).
Proof.
  unfold MedicalRecordViewSet.create.
  destruct (validate_medical_record s attrs) as [attrs'|msg] eqn:Hv; [|done].
  split; [|done]. intros _.
  unfold validate_medical_record in Hv.
  destruct (get_user s (mr_patient_id attrs) Patient) as [p|] eqn:Hp; [|done].
  destruct (get_user s (mr_doctor_id attrs) Doctor) as [d|] eqn:Hd; [|done].
  destruct (appointments s !! appointment_id attrs) as [a|] eqn:Ha; [|done].
  apply get_user_Some in Hp as [Hp _]. apply get_user_Some in Hd as [Hd _].
  destruct (bool_decide (patient a ≠ p.1)) eqn:Hpa; [done|].
  destruct (bool_decide (doctor a ≠ d.1)) eqn:Hda; [done|].
  apply bool_decide_eq_false, dec_stable in Hpa.
  apply bool_decide_eq_false, dec_stable in Hda.
  injection Hv as <-.
  unfold MedicalRecordViewSet.perform_create, MedicalRecordViewSet.serializer_save.
  exists (next_pk (medical_records s)).
  destruct (is_doctor u); simpl;
    (eexists _, a; split_and!;
     [apply fresh_key_unused | reflexivity | reflexivity | reflexivity
     | simpl; congruence | reflexivity | simpl; try done; congruence
     | reflexivity | reflexivity]).
Qed.

Lemma record_create_effect_witness :
  ∃ k r a,
    medical_records example.clinic !! k = None
    ∧ medical_records
        (MedicalRecordViewSet.create (λ p _, p) (1, example.alice)
           (example.record_attrs 1 2 1) 100 example.clinic).2
      = <[k := r]> (medical_records example.clinic)
    ∧ appointments example.clinic !! 1 = Some a
    ∧ mr_patient r = patient a.
Proof.
  destruct (record_create_effect (λ p _, p) (1, example.alice)
              (example.record_attrs 1 2 1) 100 example.clinic) as [H _].
  destruct (H eq_refl) as (k & r & a & H1 & H2 & H3 & _ & H4 & _).
  exists k, r, a. split_and!; assumption.
Defined.

(** ** Creating a patient profile *)

Lemma profile_save_Some owner attrs s s' :
  profiles.serializer_save (Some owner) attrs s = Some s' →
  (∀ i p, patient_profiles s !! i = Some p → pp_user p ≠ owner)
  ∧ ∃ p, pp_user p = owner
         ∧ s' = profiles.set_patient_profiles
                  (<[next_pk (patient_profiles s) := p]> (patient_profiles s)) s.
Proof.
  unfold profiles.serializer_save.
  destruct (first _) as [x|] eqn:Hfirst; [done|].
  intros [= <-]. split; [|eexists; split; [|reflexivity]; reflexivity].
  intros i p Hi Hown. apply (first_None_lookup _ i) in Hfirst.
  apply map_lookup_filter_None in Hfirst as [Hfirst|Hfirst]; [congruence|].
  by apply (Hfirst p Hi).
Qed.

Lemma profile_save_free owner attrs s :
  (∀ i p, patient_profiles s !! i = Some p → pp_user p ≠ owner) →
  is_Some (profiles.serializer_save (Some owner) attrs s).
Proof.
  intros Hfree. unfold profiles.serializer_save.
  destruct (first _) as [x|] eqn:Hfirst; [|eauto].
  apply first_Some_lookup, map_lookup_filter_Some in Hfirst as [Hx Hown].
  exfalso. by apply (Hfree _ _ Hx).
Qed.

(** X16.  On validated data, [perform_create] of the patient profiles
    stores a profile exactly when the requester has role patient and owns no
    profile yet; in every other case the table raises an integrity error
    and nothing is written.  A doctor or an admin can therefore never
    create a profile, and a patient never a second one. *)
Theorem profile_create_succeeds_iff (u : Z * User)
    (attrs : profiles.PatientProfileAttrs) (s : DB) :
  is_Some (profiles.perform_create u attrs s) ↔
    role u.2 = Patient
    ∧ ∀ i p, patient_profiles s !! i = Some p → pp_user p ≠ u.1.
Proof.
  unfold profiles.perform_create, is_patient.
  destruct (decide (role u.2 = Patient)) as [Hr|Hr].
  - rewrite (bool_decide_eq_true_2 _ Hr). split.
    + intros [s' Hs']. apply profile_save_Some in Hs' as [Hfree _]. done.
    + intros [_ Hfree]. by apply profile_save_free.
  - rewrite (bool_decide_eq_false_2 _ Hr). simpl. split.
    + by intros [? ?].
    + by intros [? _].
Qed.



(** ** Names and ages *)

Lemma before_at_split (e : string) :
  occurs at_sign (before_at e) = false
  ∧ ∃ rest, e = (before_at e +:+ rest)
            ∧ (rest = EmptyString ∨ ∃ rest', rest = String at_sign rest').
Proof.
  induction e as [|c e [IH1 (rest & IH2 & IH3)]]; simpl.
  - split; [done|]. exists EmptyString. auto.
  - destruct (Ascii.eqb_spec c at_sign) as [->|Hc]; simpl.
    + split; [done|]. exists (String at_sign e). eauto.
    + split.
      * rewrite IH1. by apply orb_false_iff, conj; [apply Ascii.eqb_neq|].
      * exists rest. split; [|done].
        change (String c e = String c (before_at e +:+ rest)). by f_equal.
Qed.

(** X18.  [get_short_name] is the name whenever the name is not empty.  With
    an empty name it is the part of the e-mail address before the first
    [@]: it contains no [@], and the address is this part followed by
    nothing or by a rest that starts with [@]. *)
Theorem get_short_name_spec (u : User) :
  (name u ≠ EmptyString → get_short_name u = name u)
  ∧ (name u = EmptyString →
     occurs at_sign (get_short_name u) = false
     ∧ ∃ rest, email u = (get_short_name u +:+ rest)
               ∧ (rest = EmptyString ∨ ∃ rest', rest = String at_sign rest')).
Proof.
  unfold get_short_name. destruct (name u); split; try done.
  intros _. apply before_at_split.
Qed.

Lemma get_short_name_spec_witness :
  occurs at_sign
    (get_short_name (create_user "alice@example.org" EmptyString Patient)) = false.
Proof.
  apply (get_short_name_spec (create_user "alice@example.org" EmptyString Patient)).
  reflexivity.
Defined.

(** X19.  [get_age] of a profile without a date of birth is [None].  With a
    date of birth that is not after today it is a number that is never
    negative, that never decreases as the day advances, that is the
    difference of the years from the birthday on and one less before it. *)
Theorem get_age_counts_birthdays (today today' dob : profiles.date) :
  profiles.date_le dob today → profiles.date_le today today' →
  profiles.get_age today None = None
  ∧ ∃ n n',
      profiles.get_age today (Some dob) = Some n
      ∧ profiles.get_age today' (Some dob) = Some n'
      ∧ 0 ≤ n ≤ n'
      ∧ (profiles.month today = profiles.month dob →
         profiles.day today = profiles.day dob →
         n = profiles.year today - profiles.year dob)
      ∧ (n = profiles.year today - profiles.year dob
         ↔ ¬ (profiles.month today < profiles.month dob
              ∨ (profiles.month today = profiles.month dob
                 ∧ profiles.day today < profiles.day dob)))
      ∧ (n = profiles.year today - profiles.year dob
         ∨ n = profiles.year today - profiles.year dob - 1).
Proof.
  unfold profiles.date_le, profiles.get_age, profiles.tuple_lt. simpl.
  intros H1 H2. split; [reflexivity|]. eexists _, _.
  split; [reflexivity|]. split; [reflexivity|].
  repeat case_bool_decide; simpl; lia.
Qed.

Lemma get_age_counts_birthdays_witness :
  ∃ n n',
    profiles.get_age {| profiles.year := 2024; profiles.month := 3; profiles.day := 1 |}
      (Some {| profiles.year := 1990; profiles.month := 3; profiles.day := 2 |})
    = Some n
    ∧ profiles.get_age
        {| profiles.year := 2024; profiles.month := 3; profiles.day := 2 |}
        (Some {| profiles.year := 1990; profiles.month := 3; profiles.day := 2 |})
      = Some n'
    ∧ 0 ≤ n ≤ n'.
Proof.
  destruct (get_age_counts_birthdays
              {| profiles.year := 2024; profiles.month := 3; profiles.day := 1 |}
              {| profiles.year := 2024; profiles.month := 3; profiles.day := 2 |}
              {| profiles.year := 1990; profiles.month := 3; profiles.day := 2 |})
    as (_ & n & n' & H1 & H2 & H3 & _).
  - unfold profiles.date_le. simpl. lia.
  - unfold profiles.date_le. simpl. lia.
  - exists n, n'. split; [exact H1|]. split; [exact H2|exact H3].
Defined.

(** ** Dashboard counts *)

Lemma size_filter_disjoint {A} (P Q : Z * A → Prop)
    `{!∀ x, Decision (P x)} `{!∀ x, Decision (Q x)} (m : gmap Z A) :
  (∀ x, P x → Q x → False) →
  (size (filter P m) + size (filter Q m) ≤ size m)%nat.
Proof.
  intros Hdisj. rewrite <- map_size_disj_union.
  - apply map_subseteq_size, map_union_least; apply map_filter_subseteq.
  - apply map_disjoint_spec. intros i x y [Hx HP]%map_lookup_filter_Some
      [Hy HQ]%map_lookup_filter_Some.
    assert (x = y) as -> by congruence. eauto.
Qed.

(** X20.  In the body of [stats] the pending and the completed appointments
    together never exceed the total of appointments, the patients and the
    doctors together never exceed the users, the total of medical records
    is the number of rows the diagnoses are counted over, and
    [common_diagnoses] has at most five entries, none with a count above
    that total. *)
Theorem stats_counts_are_consistent (s : DB) (d : DashboardViewSet.Stats) :
  DashboardViewSet.stats_data s d →
  (DashboardViewSet.pending_appointments d
   + DashboardViewSet.completed_appointments d
   ≤ DashboardViewSet.total_appointments d)%nat
  ∧ (DashboardViewSet.total_patients d + DashboardViewSet.total_doctors d
     ≤ size (users s))%nat
  ∧ DashboardViewSet.total_medical_records d
    = length (DashboardViewSet.diagnoses s)
  ∧ (length (DashboardViewSet.stats_common_diagnoses d) ≤ 5)%nat
  ∧ ∀ x n, (x, n) ∈ DashboardViewSet.stats_common_diagnoses d →
           (0 < n ≤ DashboardViewSet.total_medical_records d)%nat.
Proof.
  intros (-> & -> & -> & -> & -> & Htotal & l & [Hperm _] & Hres).
  assert (Hlen : size (medical_records s) = length (DashboardViewSet.diagnoses s)).
  { unfold DashboardViewSet.diagnoses.
    by rewrite length_fmap, length_map_to_list. }
  split_and!.
  - apply size_filter_disjoint. intros x. simpl. congruence.
  - apply size_filter_disjoint. intros x. simpl. congruence.
  - congruence.
  - rewrite Hres, length_take. lia.
  - intros x n Hin. rewrite Hres in Hin. apply (subseteq_take 5 l) in Hin.
    rewrite Hperm in Hin. apply elem_of_annotate_count in Hin as [Hx ->].
    rewrite Htotal, Hlen. split; [by apply Count_pos|].
    unfold DashboardViewSet.Count. apply length_filter.
Qed.

Lemma stats_counts_are_consistent_witness :
  (2 + 1 ≤ 5)%nat ∧ (3 + 2 ≤ size (users example.clinic))%nat.
Proof.
  destruct (stats_counts_are_consistent example.clinic
              {| DashboardViewSet.total_patients := 3;
                 DashboardViewSet.total_doctors := 2;
                 DashboardViewSet.total_appointments := 5;
                 DashboardViewSet.pending_appointments := 2;
                 DashboardViewSet.completed_appointments := 1;
                 DashboardViewSet.total_medical_records := 3;
                 DashboardViewSet.stats_common_diagnoses :=
                   [("flu", 2%nat); ("cold", 1%nat)] |}) as (H1 & H2 & _).
  - unfold DashboardViewSet.stats_data. simpl.
    split_and!; try (vm_compute; reflexivity). apply clinic_common_diagnoses.
  - split; [exact H1|exact H2].
Defined.

(** ** Booking, then confirming *)

(** X21.  Booking and confirming compose: on a table that satisfies
    [unique_together], after a [create] answered 201 whose body leaves the
    status out or sets it to pending, the user named as doctor can confirm
    the new appointment at any later clock, and it then reads confirmed. *)
Theorem created_appointment_can_be_confirmed (init_fk : Z → Z → Z)
    (u : Z * User) (attrs : AppointmentAttrs) (now now' : Z) (s : DB) (d : User) :
  unique_together (appointments s) →
  (AppointmentViewSet.create init_fk u attrs now s).1 = HTTP_201_CREATED →
  default Pending (attrs_status attrs) = Pending →
  role d = Doctor →
  ∃ pk,
    appointments s !! pk = None
    ∧ (AppointmentViewSet.confirm (doctor_id attrs, d) pk now'
         (AppointmentViewSet.create init_fk u attrs now s).2).1 = HTTP_200_OK
    ∧ status <$> appointments
        (AppointmentViewSet.confirm (doctor_id attrs, d) pk now'
           (AppointmentViewSet.create init_fk u attrs now s).2).2 !! pk
      = Some Confirmed.
Proof.
  intros Huniq Hr Hst Hrole.
  pose proof (dispatch_unique_together init_fk u (AppointmentCreate attrs) now s Huniq)
    as Huniq'. simpl in Huniq'.
  destruct (create_stores_patient init_fk u attrs now s
              (AppointmentViewSet.create init_fk u attrs now s).2)
    as (pk & a & Hnew & Happ & Hd & _).
  { destruct (AppointmentViewSet.create init_fk u attrs now s); simpl in *.
    by rewrite Hr. }
  assert (Ha : appointments (AppointmentViewSet.create init_fk u attrs now s).2 !! pk
               = Some a).
  { rewrite Happ. apply lookup_insert_eq. }
  assert (Hsta : status a = Pending).
  { unfold AppointmentViewSet.create in Happ.
    destruct (validate s now attrs) as [attrs'|msg] eqn:Hv;
      [|simpl in Happ; by rewrite Happ, lookup_insert_eq in Hnew].
    apply validate_Valid in Hv as ->.
    destruct (AppointmentViewSet.perform_create _ _ _ _ _) as [s'|] eqn:Hc;
      [|simpl in Happ; by rewrite Happ, lookup_insert_eq in Hnew].
    unfold AppointmentViewSet.perform_create, AppointmentViewSet.serializer_save in Hc.
    simpl in Happ. assert (Hlook : appointments s' !! pk = Some a).
    { rewrite Happ. apply lookup_insert_eq. }
    destruct (is_patient u); apply save_Some in Hc as [_ ->]; simpl in Hlook;
      (apply lookup_insert_Some in Hlook as [[_ <-]|[_ Hlook]];
       [simpl; exact Hst | congruence]). }
  exists pk. split; [done|].
  assert (H200 : (run Confirm (doctor_id attrs, d) pk now'
                    (AppointmentViewSet.create init_fk u attrs now s).2).1
                 = HTTP_200_OK).
  { apply (run_succeeds_iff Confirm _ pk now' _ a Ha Huniq'); simpl; [|done].
    intros _. by apply in_scope_of_doctor. }
  split; [exact H200|]. exact (run_200_status Confirm _ pk now' _ H200).
Qed.

Lemma created_appointment_can_be_confirmed_witness :
  ∃ pk,
    appointments example.clinic !! pk = None
    ∧ (AppointmentViewSet.confirm (2, example.dr_grey) pk 200
         (AppointmentViewSet.create (λ p _, p) (1, example.alice)
            (example.attrs 1 2 1500 None) 100 example.clinic).2).1 = HTTP_200_OK.
Proof.
  destruct (created_appointment_can_be_confirmed (λ p _, p) (1, example.alice)
              (example.attrs 1 2 1500 None) 100 200 example.clinic example.dr_grey)
    as (pk & H1 & H2 & _); try reflexivity.
  - refine (bool_decide_unpack _ _). vm_compute. exact I.
  - exists pk. split; assumption.
Defined.

(** * The claims the code does not keep *)

(** ** Reaching the databases of the story *)

Lemma reachable_start : reachable story.keep_id story.start.
Proof. apply reachable_initial. Qed.

Lemma reachable_booked : reachable story.keep_id story.booked.
Proof. apply reachable_request, reachable_start. Qed.

Lemma reachable_completed : reachable story.keep_id story.completed.
Proof. do 2 apply reachable_request. apply reachable_booked. Qed.


(** ** C1: a completed appointment and the double-booking check *)

(** C1.  The double-booking check of [validate] looks for pending and
    confirmed holders only.  On a table that satisfies [unique_together],
    when the holder of the doctor and time of a create request is
    completed, and the patient, the doctor and the time are accepted,
    [validate] passes; the create then ends in the integrity error of the
    table instead of the double-booking error, and writes nothing.  So it
    goes in the story: Dr House completes Kim's booking ahead of its date
    and Bob asks for the same doctor and time. *)
Theorem completed_holder_escapes_double_booking_check :
  (∀ init_fk u attrs now s j b,
     appointments s !! j = Some b → status b = Completed →
     doctor b = doctor_id attrs → date_time b = attrs_date_time attrs →
     unique_together (appointments s) →
     is_Some (get_user s (patient_id attrs) Patient) →
     is_Some (get_user s (doctor_id attrs) Doctor) →
     now < attrs_date_time attrs →
     validate s now attrs = Valid attrs
     ∧ AppointmentViewSet.create init_fk u attrs now s = (IntegrityError, s))
  ∧ reachable story.keep_id story.completed
  ∧ status <$> appointments story.completed !! 1 = Some Completed
  ∧ date_time <$> appointments story.completed !! 1 = Some 1000
  ∧ validate story.completed 40 (example.attrs 7 4 1000 None)
    = Valid (example.attrs 7 4 1000 None)
  ∧ AppointmentViewSet.create story.keep_id (7, example.bob)
      (example.attrs 7 4 1000 None) 40 story.completed
    = (IntegrityError, story.completed).
Proof.
  split_and!; [|apply reachable_completed|vm_compute; reflexivity..].
  intros init_fk u attrs now s j b Hj Hst Hd Ht Huniq [p Hp] [d Hdoc] Hnow.
  pose proof (proj1 (unique_together_alt _) Huniq) as Huniq'.
  assert (Hv : validate s now attrs = Valid attrs).
  { apply (validate_free s now attrs p d); [done..|].
    intros i c Hi Hdc Htc Hin.
    assert (i = j) as -> by (apply (Huniq' i j c b); congruence).
    assert (c = b) as -> by congruence.
    rewrite Hst, !elem_of_cons, elem_of_nil in Hin. intuition discriminate. }
  split; [done|]. unfold AppointmentViewSet.create. rewrite Hv.
  by rewrite (perform_create_clash init_fk u attrs now s j b Hj Hd Ht).
Qed.

(** ** C2: the inherited update and the state machine *)

(** C2.  The PUT that [AppointmentViewSet] inherits writes the status of the
    body: whenever it answers 200 to a body that names a status, the
    appointment has that status afterwards, whatever it had before and
    whoever asks.  In the story Kim, a patient, moves the pending booking
    straight to completed, and moves it back to pending after cancelling
    it; both requests are answered 200. *)
Theorem put_moves_status_off_the_machine :
  (∀ u pk attrs now s a st,
     get_object (AppointmentViewSet.get_queryset u s) pk = Some a →
     attrs_status attrs = Some st →
     (AppointmentViewSet.update u pk attrs now s).1 = HTTP_200_OK →
     status <$> appointments (AppointmentViewSet.update u pk attrs now s).2 !! pk
     = Some st)
  ∧ reachable story.keep_id story.booked
  ∧ role story.kim = Patient
  ∧ status <$> appointments story.booked !! 1 = Some Pending
  ∧ (AppointmentViewSet.update (2, story.kim) 1
       (example.attrs 2 4 1500 (Some Completed)) 20 story.booked).1 = HTTP_200_OK
  ∧ status <$> appointments
      (AppointmentViewSet.update (2, story.kim) 1
         (example.attrs 2 4 1500 (Some Completed)) 20 story.booked).2 !! 1
    = Some Completed
  ∧ (AppointmentViewSet.cancel (2, story.kim) 1 20 story.booked).1 = HTTP_200_OK
  ∧ (AppointmentViewSet.update (2, story.kim) 1
       (example.attrs 2 4 1000 (Some Pending)) 30
       (AppointmentViewSet.cancel (2, story.kim) 1 20 story.booked).2).1
    = HTTP_200_OK
  ∧ status <$> appointments
      (AppointmentViewSet.update (2, story.kim) 1
         (example.attrs 2 4 1000 (Some Pending)) 30
         (AppointmentViewSet.cancel (2, story.kim) 1 20 story.booked).2).2 !! 1
    = Some Pending.
Proof.
  split_and!; [|apply reachable_booked|vm_compute; reflexivity..].
  intros u pk attrs now s a st Hget Hst. unfold AppointmentViewSet.update.
  rewrite Hget.
  destruct (validate s now attrs) as [attrs'|msg] eqn:Hv; [|done].
  apply validate_Valid in Hv as ->.
  destruct (save _ _ _ _) as [s'|] eqn:Hsave; [|done].
  apply save_Some in Hsave as [_ ->]. intros _. simpl.
  rewrite lookup_insert_eq. simpl. by rewrite Hst.
Qed.

(** ** C3: the recent-activity listing *)

Lemma newest_first_all {A} (created : A → Z) (m : gmap Z A) l :
  recent.newest_first created (map_to_list m) l → (size m ≤ 10)%nat →
  ∀ i x, m !! i = Some x → (i, x) ∈ take 10 l.
Proof.
  intros [Hperm _] Hsize i x Hi.
  rewrite take_ge.
  - rewrite Hperm. by apply elem_of_map_to_list.
  - by rewrite Hperm, length_map_to_list.
Qed.

(** C3.  [recent_activity] reads the whole appointment and medical-record
    tables, with no filter on the requester: whenever the tables hold at
    most ten rows each, every appointment and every record is in its body.
    Its gate is [is_staff], so a staff user whose role is patient is handed
    the rows of other patients: the staff patient of the examples receives
    Bob's appointment and Bob's record. *)
Theorem recent_activity_shows_other_patients :
  (∀ u s apps recs,
     recent.recent_activity_rows u s apps recs →
     is_staff u.2 = true
     ∧ ((size (appointments s) ≤ 10)%nat →
        ∀ i a, appointments s !! i = Some a → (i, a) ∈ apps)
     ∧ ((size (medical_records s) ≤ 10)%nat →
        ∀ i r, medical_records s !! i = Some r → (i, r) ∈ recs))
  ∧ role example.staff_patient = Patient
  ∧ DashboardViewSet.recent_activity (6, example.staff_patient) example.clinic
    = HTTP_200_OK
  ∧ ∃ apps recs,
      recent.recent_activity_rows (6, example.staff_patient) example.clinic apps recs
      ∧ (2, example.appointment 3 2 2000 Confirmed) ∈ apps
      ∧ patient (example.appointment 3 2 2000 Confirmed) ≠ 6
      ∧ (2, example.record 3 2 2 "flu") ∈ recs
      ∧ mr_patient (example.record 3 2 2 "flu") ≠ 6.
Proof.
  assert (Hgen : ∀ u s apps recs,
     recent.recent_activity_rows u s apps recs →
     is_staff u.2 = true
     ∧ ((size (appointments s) ≤ 10)%nat →
        ∀ i a, appointments s !! i = Some a → (i, a) ∈ apps)
     ∧ ((size (medical_records s) ≤ 10)%nat →
        ∀ i r, medical_records s !! i = Some r → (i, r) ∈ recs)).
  { intros u s apps recs [Hperm [(l & Hl & ->) (l' & Hl' & ->)]].
    rewrite check_permissions_is_staff in Hperm. split_and!; [done|..].
    - intros Hsize. by apply (newest_first_all created_at).
    - intros Hsize. by apply (newest_first_all mr_created_at). }
  split_and!; [exact Hgen|reflexivity|reflexivity|].
  assert (Hrows : recent.recent_activity_rows (6, example.staff_patient)
                    example.clinic
                    (take 10 (map_to_list (appointments example.clinic)))
                    (take 10 (map_to_list (medical_records example.clinic)))).
  { split; [reflexivity|]. split; eexists; (split; [split; [reflexivity|]|reflexivity]).
    - let l := eval vm_compute in (map_to_list (appointments example.clinic)) in
      change (map_to_list (appointments example.clinic)) with l.
      repeat (constructor; try (simpl; lia)).
    - let l := eval vm_compute in (map_to_list (medical_records example.clinic)) in
      change (map_to_list (medical_records example.clinic)) with l.
      repeat (constructor; try (simpl; lia)). }
  eexists _, _. split; [exact Hrows|].
  destruct (Hgen _ _ _ _ Hrows) as (_ & Happs & Hrecs).
  split_and!.
  - apply Happs; [vm_compute; lia|reflexivity].
  - simpl. lia.
  - apply Hrecs; [vm_compute; lia|reflexivity].
  - simpl. lia.
Qed.

(** ** C4: what removes an appointment, and what keeps a terminal one *)



(** ** C5: who can cancel *)




